(** * aic: the commit-message generator of [src/gen-commit.ts]

    A shallow embedding of the [GitCommitGenerator] class and of the
    top-level statement that runs it.  The program is one linear pipeline
    over three collaborators (the git executable, the chat-completion
    endpoint, the terminal); every call to a collaborator is recorded as an
    [Event], the collaborators' answers are read from a [World], and JavaScript
    exceptions and [process.exit] are outcomes of a small writer monad. *)

From Stdlib Require Import String Ascii List Bool NArith ZArith QArith Lia.
From Stdlib Require Import DecimalString.
Import ListNotations.

Set Warnings "-register-all".

Local Open Scope string_scope.
Local Open Scope N_scope.

(** ** JavaScript strings

    A string is the UTF-8 text of the JavaScript string, byte by byte (what
    [execSync] with [encoding: 'utf-8'] decodes, what a Rocq literal holds).
    The builtins the program calls are written out on that representation. *)

Module JsString.

Definition byte_is (c : ascii) (n : N) : bool := N_of_ascii c =? n.

(** ECMAScript WhiteSpace and LineTerminator code points that are one byte
    long: TAB, LF, VT, FF, CR, SPACE. *)
Definition ws1 (a : ascii) : bool :=
  byte_is a 9 || byte_is a 10 || byte_is a 11 || byte_is a 12 ||
  byte_is a 13 || byte_is a 32.

(** Two bytes: U+00A0 (C2 A0). *)
Definition ws2 (a b : ascii) : bool := byte_is a 194 && byte_is b 160.

(** Three bytes: U+1680 (E1 9A 80), U+2000..U+200A (E2 80 80..8A),
    U+2028, U+2029 (E2 80 A8, A9), U+202F (E2 80 AF), U+205F (E2 81 9F),
    U+3000 (E3 80 80), U+FEFF (EF BB BF). *)
Definition ws3 (a b c : ascii) : bool :=
  (byte_is a 225 && byte_is b 154 && byte_is c 128) ||
  (byte_is a 226 && byte_is b 128 &&
     ((128 <=? N_of_ascii c) && (N_of_ascii c <=? 138)
      || byte_is c 168 || byte_is c 169 || byte_is c 175)) ||
  (byte_is a 226 && byte_is b 129 && byte_is c 159) ||
  (byte_is a 227 && byte_is b 128 && byte_is c 128) ||
  (byte_is a 239 && byte_is b 187 && byte_is c 191).

(** Drop white space from the front of a byte list.  With [fwd = false] the
    list is a reversed string, and the multi-byte code points are matched
    last byte first. *)
Fixpoint strip (fwd : bool) (l : list ascii) : list ascii :=
  match l with
  | [] => l
  | a :: r =>
    if ws1 a then strip fwd r else
    match r with
    | [] => l
    | b :: r2 =>
      if (if fwd then ws2 a b else ws2 b a) then strip fwd r2 else
      match r2 with
      | [] => l
      | c :: r3 =>
        if (if fwd then ws3 a b c else ws3 c b a) then strip fwd r3 else l
      end
    end
  end.

(** [String.prototype.trim]. *)
Definition trim (s : string) : string :=
  string_of_list_ascii
    (rev (strip false (rev (strip true (list_ascii_of_string s))))).

(** [String.prototype.toLowerCase] on the letters A..Z.  Bytes of code
    points outside ASCII are left as they are: no such code point lower-cases
    to an ASCII [y], which is all the program compares the result with. *)
Definition lower (c : ascii) : ascii :=
  let n := N_of_ascii c in
  if (65 <=? n) && (n <=? 90) then ascii_of_N (n + 32) else c.

Fixpoint toLowerCase (s : string) : string :=
  match s with
  | EmptyString => EmptyString
  | String c r => String (lower c) (toLowerCase r)
  end.

(** [s.replace(/c/g, repl)] for a pattern that is the one character [c]:
    the matches are the occurrences of [c], left to right, and [repl] has no
    [$] in it, so it is inserted as it is. *)
Fixpoint replace_g (c : ascii) (repl s : string) : string :=
  match s with
  | EmptyString => EmptyString
  | String a r =>
    if Ascii.eqb a c then repl ++ replace_g c repl r
    else String a (replace_g c repl r)
  end.

(** A template literal's rendering of a non-negative integer. *)
Definition of_N (n : N) : string := NilEmpty.string_of_uint (N.to_uint n).

(** [s.startsWith(p)], used to tell the two git commands apart in a trace. *)
Fixpoint startsWith (p s : string) : bool :=
  match p, s with
  | EmptyString, _ => true
  | String a p', String b s' => Ascii.eqb a b && startsWith p' s'
  | String _ _, EmptyString => false
  end.

(** [s.includes(p)]. *)
Fixpoint includes (p s : string) : bool :=
  startsWith p s ||
  match s with
  | EmptyString => false
  | String _ s' => includes p s'
  end.

End JsString.

Import JsString.

(** ** JavaScript values

    The response body and the error payload are parsed JSON.  A number is
    held as the text [Number.prototype.toString] gives for it ([401], [0.5],
    [1e+21], ...): the program never computes with a payload's number, it
    only tests it for truth and interpolates it. *)

Inductive JsValue : Type :=
| JUndefined
| JNull
| JBool (b : bool)
| JNum (text : string)
| JStr (s : string)
| JArr (items : list JsValue)
| JObj (fields : list (string * JsValue)).

(** A property key: [v.name] or [v[i]]. *)
Inductive Key : Type :=
| Name (s : string)
| Index (i : nat).

Definition key_text (k : Key) : string :=
  match k with
  | Name s => s
  | Index i => of_N (N.of_nat i)
  end.

(** Own property of a parsed object (keys of a parsed object are distinct). *)
Fixpoint field (k : string) (fs : list (string * JsValue)) : JsValue :=
  match fs with
  | [] => JUndefined
  | (k', v) :: r => if String.eqb k k' then v else field k r
  end.

(** [v[k]] for a [v] that is neither [undefined] nor [null]; [None] when it
    is one of them, where a plain access throws and [?.] gives [undefined].
    Of the inherited properties only the ones the program can reach matter:
    none of [choices], [message], [content], [error], [code] is inherited by
    a JSON value, and [trim] is treated at its call. *)
Definition lookup (v : JsValue) (k : Key) : option JsValue :=
  match v with
  | JUndefined | JNull => None
  | JBool _ | JNum _ => Some JUndefined
  | JStr s =>
    match k with
    | Index i =>
      match String.get i s with
      | Some c => Some (JStr (String c EmptyString))
      | None => Some JUndefined
      end
    | Name _ => Some JUndefined
    end
  | JArr items =>
    match k with
    | Index i => Some (nth i items JUndefined)
    | Name _ => Some JUndefined
    end
  | JObj fs => Some (field (key_text k) fs)
  end.

(** [v?.k] *)
Definition optGet (v : JsValue) (k : Key) : JsValue :=
  match lookup v k with
  | Some x => x
  | None => JUndefined
  end.

(** ToBoolean, as [!v] and [v || w] apply it. *)
Definition truthy (v : JsValue) : bool :=
  match v with
  | JUndefined | JNull => false
  | JBool b => b
  | JNum text => negb (String.eqb text "0" || String.eqb text "NaN")
  | JStr s => negb (String.eqb s "")
  | JArr _ | JObj _ => true
  end.

(** [fs] has an own property named [k]. *)
Definition has_key (k : string) (fs : list (string * JsValue)) : bool :=
  existsb (fun kv => String.eqb k (fst kv)) fs.

(** ToString, as a template literal applies it; [None] when it throws a
    [TypeError].  An array is joined with commas, [undefined] and [null]
    elements giving the empty text.  A parsed object inherits
    [Object.prototype.toString], which gives [[object Object]], unless it has
    an own property [toString]: no JSON value is callable, [valueOf] gives
    no primitive either, and the conversion throws. *)
Fixpoint toString (v : JsValue) : option string :=
  match v with
  | JUndefined => Some "undefined"
  | JNull => Some "null"
  | JBool true => Some "true"
  | JBool false => Some "false"
  | JNum text => Some text
  | JStr s => Some s
  | JArr items =>
    (fix join (l : list JsValue) : option string :=
       match l with
       | [] => Some ""
       | x :: r =>
         match match x with
               | JUndefined | JNull => Some ""
               | _ => toString x
               end with
         | None => None
         | Some e =>
           match r with
           | [] => Some e
           | _ :: _ =>
             match join r with
             | Some rest => Some (e ++ "," ++ rest)
             | None => None
             end
           end
         end
       end) items
  | JObj fs => if has_key "toString" fs then None else Some "[object Object]"
  end.

(** [v === s] for a string [s]. *)
Definition strictEqStr (v : JsValue) (s : string) : bool :=
  match v with
  | JStr s' => String.eqb s' s
  | _ => false
  end.

(** ** Thrown values, outcomes and the trace *)

Module AxiosResponse.
Record t : Type := { status : N; data : JsValue }.
End AxiosResponse.

(** What a [catch] clause can receive.  [instanceof Error] holds of the
    first two, [instanceof AxiosError] of the second only. *)
Inductive Thrown : Type :=
| ErrorObj (message : string)
| AxiosError (message : string) (response : option AxiosResponse.t)
| NotAnError.

(** [error instanceof Error ? error.message : fallback] *)
Definition messageOr (error : Thrown) (fallback : string) : string :=
  match error with
  | ErrorObj m => m
  | AxiosError m _ => m
  | NotAnError => fallback
  end.

Module ChatRequest.
Record t : Type := {
  model : string;
  messages : list (string * string);   (* role, content *)
  temperature : Q
}.
End ChatRequest.

(** One record per call that leaves the process. *)
Inductive Event : Type :=
| ExecSync (command : string)
| AxiosPost (url : string) (body : ChatRequest.t)
            (headers : list (string * string))
| Question (query : string)
| ConsoleLog (text : string)
| ConsoleLogValue (v : JsValue)
| ConsoleError (text : string)
| ConsoleErrorFatal (error : Thrown)     (* console.error('Fatal error:', error) *)
| Uncaught (error : Thrown).             (* the runtime's report of an uncaught exception *)

Inductive Outcome (A : Type) : Type :=
| Return (a : A)
| Throw (error : Thrown)
| Exit (code : N).

Arguments Return {A} a.
Arguments Throw {A} error.
Arguments Exit {A} code.

(** A computation: how it ends and what it did, oldest event first.  The
    program is sequential (every promise is awaited at once), so [await] is
    plain sequencing; [Exit] ends the process where it stands. *)
Definition M (A : Type) : Type := Outcome A * list Event.

Definition ret {A} (a : A) : M A := (Return a, []).
Definition throw {A} (error : Thrown) : M A := (Throw error, []).
Definition process_exit {A} (code : N) : M A := (Exit code, []).
Definition emit (e : Event) : M unit := (Return tt, [e]).

Definition bind {A B} (m : M A) (f : A -> M B) : M B :=
  match m with
  | (Return a, t) => let (o, t') := f a in (o, (t ++ t')%list)
  | (Throw error, t) => (Throw error, t)
  | (Exit code, t) => (Exit code, t)
  end.

(** [try { m } catch (error) { handler }] *)
Definition try_catch {A} (m : M A) (handler : Thrown -> M A) : M A :=
  match m with
  | (Throw error, t) => let (o, t') := handler error in (o, (t ++ t')%list)
  | other => other
  end.

Declare Scope js_scope.
Delimit Scope js_scope with js.
Notation "x <- m ;; k" := (bind m (fun x => k))
  (at level 61, m at next level, right associativity) : js_scope.
Notation "m ;; k" := (bind m (fun _ => k))
  (at level 61, right associativity) : js_scope.
Local Open Scope js_scope.

(** A [TypeError] is an [Error]. *)
Definition typeError {A} (message : string) : M A := throw (ErrorObj message).

Definition nullish_name (v : JsValue) : string :=
  match v with
  | JNull => "null"
  | _ => "undefined"
  end.

(** [v[k]], throwing on [undefined] and [null]. *)
Definition get (v : JsValue) (k : Key) : M JsValue :=
  match lookup v k with
  | Some x => ret x
  | None =>
    typeError ("Cannot read properties of " ++ nullish_name v ++
               " (reading '" ++ key_text k ++ "')")
  end.

(** [v.trim()]: the string method on a string, a [TypeError] on anything
    else (a JSON value holds no function). *)
Definition call_trim (v : JsValue) : M string :=
  match v with
  | JStr s => ret (trim s)
  | JUndefined | JNull =>
    typeError ("Cannot read properties of " ++ nullish_name v ++
               " (reading 'trim')")
  | _ => typeError "response.data.choices[0].message.content.trim is not a function"
  end.

(** The interpolation of [v] in a template literal. *)
Definition interpolate (v : JsValue) : M string :=
  match toString v with
  | Some text => ret text
  | None => typeError "Cannot convert object to primitive value"
  end.

(** ** The collaborators

    Everything the program reads from outside: the environment after
    [dotenv.config()], what [execSync] gives for a command line, what
    [axios.post] gives for a request, and the line typed at the prompt. *)

Record World : Type := {
  env_OPENAI_API_KEY : option string;
  execSync : string -> string + Thrown;
  axios_post : string -> ChatRequest.t -> list (string * string) ->
               AxiosResponse.t + Thrown;
  answer : string
}.

(** ** The data of [gen-commit.ts] *)

Module GitDiff.
Record t : Type := { content : string; isEmpty : bool }.
End GitDiff.

Module CommitMessage.
Record t : Type := { content : string }.
End CommitMessage.

Module OpenAIConfig.
Record t : Type := {
  apiKey : string;
  model : string;
  temperature : Q;
  maxContextLength : N
}.
End OpenAIConfig.

Record GitCommitGenerator : Type := {
  openaiConfig : OpenAIConfig.t;
  promptTemplate : string
}.

Definition nl : string := String (ascii_of_N 10) EmptyString.

(** The template literal of the constructor, line by line. *)
Definition promptTemplate_text : string :=
  String.concat nl [
    "";
    "      You are a developer writing a conventional commit message for the following staged Git diff.";
    "      Pick **one** of these commit types based on the changes:";
    "";
    "      - feat: (new feature for the user)";
    "      - fix: (bug fix for the user)";
    "      - docs: (documentation only)";
    "      - style: (code formatting, no production logic change)";
    "      - refactor: (code refactor, no new feature or bug fix)";
    "      - test: (test-only changes)";
    "      - chore: (tooling or non-functional changes)";
    "";
    "      Write a **single-line** commit message in **present tense**, starting with the appropriate prefix and a colon. Do not include any explanation or bullet points.";
    "";
    "      Git diff:";
    "      " ].

Definition too_large_headline : string :=
  "❌ The staged changes are too large for the model to process.".

Definition too_large_advice : string :=
  "Please try committing your changes in smaller chunks.".

(** The message of the error [checkContextLength] throws. *)
Definition guard_message (totalTokens maxContextLength diffTokens : N) : string :=
  too_large_headline ++ nl ++
  "- Total tokens: " ++ of_N totalTokens ++ nl ++
  "- Maximum allowed: " ++ of_N maxContextLength ++ nl ++
  "- Diff tokens: " ++ of_N diffTokens ++ nl ++ nl ++
  too_large_advice.

(** The message of the error thrown for the provider's
    [context_length_exceeded]. *)
Definition provider_too_large_message : string :=
  too_large_headline ++ nl ++ too_large_advice.

Definition completions_url : string :=
  "https://api.openai.com/v1/chat/completions".

Definition confirm_query : string :=
  nl ++ "🤖 Do you want to use this commit message? (y/N): ".

Definition no_staged_notice : string :=
  "⚠️ No staged changes found. Stage some files first.".

(** The double quote and the backslash. *)
Definition dquote : ascii := ascii_of_N 34.
Definition backslash : ascii := ascii_of_N 92.

(** The command line [commitChanges] hands to the shell: the message, with
    [replace] putting a backslash and a double quote for every double quote
    of it, between [git commit -m], a double quote, and a closing double
    quote. *)
Definition commit_command (message : string) : string :=
  "git commit -m " ++
  String dquote
    (replace_g dquote (String backslash (String dquote "")) message ++
     String dquote "").

(** The second and third arguments of the [axios.post] call. *)
Definition request_body (self : GitCommitGenerator) (prompt : string)
  : ChatRequest.t :=
  {| ChatRequest.model := OpenAIConfig.model (openaiConfig self);
     ChatRequest.messages := [("user", prompt)];
     ChatRequest.temperature := OpenAIConfig.temperature (openaiConfig self) |}.

Definition request_headers (self : GitCommitGenerator)
  : list (string * string) :=
  [("Content-Type", "application/json");
   ("Authorization", "Bearer " ++ OpenAIConfig.apiKey (openaiConfig self))].

(** ** The program *)

Section Program.

(** [encode] of [gpt-tokenizer]: text to token ids, for a tokenizer that
    returns on every text ([Full] below has one that can throw). *)
Variable encode : string -> list N.

Variable w : World.

(** [execSync(command, ...)] *)
Definition exec (command : string) : M string :=
  emit (ExecSync command) ;;
  match execSync w command with
  | inl out => ret out
  | inr error => throw error
  end.

(** [await axios.post(url, body, { headers })] *)
Definition post (url : string) (body : ChatRequest.t)
  (headers : list (string * string)) : M AxiosResponse.t :=
  emit (AxiosPost url body headers) ;;
  match axios_post w url body headers with
  | inl response => ret response
  | inr error => throw error
  end.

Definition console_log (text : string) : M unit := emit (ConsoleLog text).
Definition console_error (text : string) : M unit := emit (ConsoleError text).

(** [rl.question(query, callback)]: the callback gets the line typed, for an
    input that has a line ([Full] below has one that can end before). *)
Definition question (query : string) : M string :=
  emit (Question query) ;; ret (answer w).

(** [constructor()].  [!apiKey] holds of [undefined] and of the empty
    string. *)
Definition new_GitCommitGenerator : M GitCommitGenerator :=
  let apiKey := env_OPENAI_API_KEY w in
  match apiKey with
  | Some key =>
    if String.eqb key "" then
      throw (ErrorObj "❌ OPENAI_API_KEY is not set. Please export it in your shell config.")
    else
      ret {| openaiConfig :=
               {| OpenAIConfig.apiKey := key;
                  OpenAIConfig.model := "gpt-3.5-turbo";
                  OpenAIConfig.temperature := 3 # 10;
                  OpenAIConfig.maxContextLength := 16385 |};
             promptTemplate := promptTemplate_text |}
  | None =>
    throw (ErrorObj "❌ OPENAI_API_KEY is not set. Please export it in your shell config.")
  end.

Variable self : GitCommitGenerator.

Definition getStagedDiff : M GitDiff.t :=
  try_catch
    (content <- exec "git diff --cached" ;;
     ret {| GitDiff.content := content;
            GitDiff.isEmpty := negb (truthy (JStr (trim content))) |})
    (fun error =>
       throw (ErrorObj ("❌ Failed to get git diff: " ++
                        messageOr error "Unknown error"))).

Definition checkContextLength (diff : string) : M unit :=
  let promptTokens := N.of_nat (length (encode (promptTemplate self))) in
  let diffTokens := N.of_nat (length (encode diff)) in
  let totalTokens := promptTokens + diffTokens in
  let max := OpenAIConfig.maxContextLength (openaiConfig self) in
  if max <? totalTokens then
    throw (ErrorObj (guard_message totalTokens max diffTokens))
  else ret tt.

Definition generateCommitMessage (diff : string) : M CommitMessage.t :=
  checkContextLength diff ;;
  let prompt := promptTemplate self ++ diff in
  try_catch
    (response <- post completions_url
                      (request_body self prompt) (request_headers self) ;;
     choices <- get (AxiosResponse.data response) (Name "choices") ;;
     choice <- get choices (Index 0) ;;
     message <- get choice (Name "message") ;;
     content <- get message (Name "content") ;;
     trimmed <- call_trim content ;;
     ret {| CommitMessage.content := trimmed |})
    (fun error =>
       match error with
       | AxiosError message response =>
         let status := option_map AxiosResponse.status response in
         let data :=
           match response with
           | Some r => AxiosResponse.data r
           | None => JUndefined
           end in
         if match status with Some n => n =? 400 | None => false end &&
            strictEqStr (optGet (optGet data (Name "error")) (Name "code"))
                        "context_length_exceeded"
         then throw (ErrorObj provider_too_large_message)
         else
           emit (ConsoleLogValue data) ;;
           text <- interpolate (if truthy data then data else JStr message) ;;
           throw (ErrorObj ("❌ Error generating commit message: " ++ text))
       | _ =>
         throw (ErrorObj ("❌ Unexpected error: " ++
                          messageOr error "Unknown error"))
       end).

Definition promptUser : M bool :=
  line <- question confirm_query ;;
  ret (String.eqb (toLowerCase line) "y").

Definition commitChanges (message : string) : M unit :=
  try_catch
    (exec (commit_command message) ;; ret tt)
    (fun error =>
       throw (ErrorObj ("❌ Failed to commit: " ++
                        messageOr error "Unknown error"))).

Definition run : M unit :=
  try_catch
    (diff <- getStagedDiff ;;
     if GitDiff.isEmpty diff then
       console_log no_staged_notice
     else
       commitMessage <- generateCommitMessage (GitDiff.content diff) ;;
       console_log (nl ++ "✅ Suggested commit message:" ++ nl) ;;
       console_log (CommitMessage.content commitMessage) ;;
       shouldCommit <- promptUser ;;
       if shouldCommit then
         commitChanges (CommitMessage.content commitMessage)
       else
         console_log "🛑 Commit cancelled.")
    (fun error =>
       console_error (messageOr error "An unexpected error occurred") ;;
       process_exit 1).

End Program.

Section Process.

Variable encode : string -> list N.
Variable w : World.

(** [new GitCommitGenerator().run().catch(...)] *)
Definition script : M unit :=
  self <- new_GitCommitGenerator w ;;
  try_catch
    (run encode w self)
    (fun error => emit (ConsoleErrorFatal error) ;; process_exit 1).

(** The process from start to end: its exit status and its trace.  An
    exception nobody caught is reported by the runtime, with status 1; a
    script that runs to its end leaves status 0. *)
Definition main : N * list Event :=
  match script with
  | (Return _, t) => (0, t)
  | (Throw error, t) => (1, (t ++ [Uncaught error])%list)
  | (Exit code, t) => (code, t)
  end.

End Process.

(** ** Reading a trace *)

Definition is_post (e : Event) : bool :=
  match e with
  | AxiosPost _ _ _ => true
  | _ => false
  end.

Definition is_question (e : Event) : bool :=
  match e with
  | Question _ => true
  | _ => false
  end.

(** The network calls of a trace. *)
Definition network_calls (t : list Event) : list Event := filter is_post t.

(** The confirmation prompts of a trace. *)
Definition prompts (t : list Event) : list Event := filter is_question t.

(** The command lines of the commit invocations of a trace. *)
Fixpoint commit_invocations (t : list Event) : list string :=
  match t with
  | [] => []
  | ExecSync command :: r =>
    if startsWith "git commit" command
    then command :: commit_invocations r
    else commit_invocations r
  | _ :: r => commit_invocations r
  end.

(** The object the constructor builds for the credential [key]. *)
Definition generator (key : string) : GitCommitGenerator :=
  {| openaiConfig :=
       {| OpenAIConfig.apiKey := key;
          OpenAIConfig.model := "gpt-3.5-turbo";
          OpenAIConfig.temperature := 3 # 10;
          OpenAIConfig.maxContextLength := 16385 |};
     promptTemplate := promptTemplate_text |}.

(** What the completion endpoint gives for the prompt built from [diff]. *)
Definition completion (w : World) (key diff : string)
  : AxiosResponse.t + Thrown :=
  axios_post w completions_url
    (request_body (generator key) (promptTemplate_text ++ diff))
    (request_headers (generator key)).

(** Token counts of the template and of a diff. *)
Definition promptTokens (encode : string -> list N) : N :=
  N.of_nat (length (encode promptTemplate_text)).

Definition diffTokens (encode : string -> list N) (diff : string) : N :=
  N.of_nat (length (encode diff)).

(** The text of the first candidate of a response body, when every step of
    [data.choices[0].message.content] is there and the end is a string. *)
Definition first_candidate (data : JsValue) : option string :=
  match lookup data (Name "choices") with
  | Some choices =>
    match lookup choices (Index 0) with
    | Some choice =>
      match lookup choice (Name "message") with
      | Some message =>
        match lookup message (Name "content") with
        | Some (JStr raw) => Some raw
        | _ => None
        end
      | None => None
      end
    | None => None
    end
  | None => None
  end.

(** The provider's [context_length_exceeded] answer: status 400 and that
    error code in the payload. *)
Definition is_context_length_error (r : AxiosResponse.t) : bool :=
  (AxiosResponse.status r =? 400) &&
  strictEqStr (optGet (optGet (AxiosResponse.data r) (Name "error")) (Name "code"))
              "context_length_exceeded".

(** The shell's reading of a text placed between double quotes: a
    backslash takes the character after it with it (before a double quote or
    a backslash it escapes that character, before another one both stay),
    and a double quote that no backslash took ends the string.
    [shell_live_quote false s] says that [s] holds such a double quote. *)
Fixpoint shell_live_quote (taken : bool) (s : string) : bool :=
  match s with
  | EmptyString => false
  | String c r =>
    if taken then shell_live_quote false r
    else if Ascii.eqb c backslash then shell_live_quote true r
    else if Ascii.eqb c dquote then true
    else shell_live_quote false r
  end.

(** The message of the error that leaves [generateCommitMessage] for a
    failed request that is not the context-length case: the payload, or the
    client's message when the payload is falsy, interpolated after the
    prefix; or the [TypeError] of the interpolation. *)
Definition failure_text (data : JsValue) (message : string) : string :=
  match toString (if truthy data then data else JStr message) with
  | Some text => "❌ Error generating commit message: " ++ text
  | None => "Cannot convert object to primitive value"
  end.

(** The replacement as the claim words it: each double quote becomes a
    backslash and a double quote, any other character stays. *)
Definition escape_char (c : ascii) : string :=
  if Ascii.eqb c dquote then String backslash (String dquote "")
  else String c "".

Definition escaped_spec (message : string) : string :=
  String.concat "" (map escape_char (list_ascii_of_string message)).

(** A tokenizer to run the program with: one token per byte. *)
Definition byte_tokens (s : string) : list N :=
  map N_of_ascii (list_ascii_of_string s).

(** ** Sample worlds *)

(** A successful response body with one candidate. *)
Definition one_candidate (text : string) : AxiosResponse.t :=
  {| AxiosResponse.status := 200;
     AxiosResponse.data :=
       JObj [("choices",
              JArr [JObj [("message",
                           JObj [("role", JStr "assistant");
                                 ("content", JStr text)])]])] |}.

(** A repository whose staged diff is [diff] and where committing works. *)
Definition git_with (diff : string) (command : string) : string + Thrown :=
  if String.eqb command "git diff --cached" then inl diff else inl "".

Definition sample_world (key : option string) (diff : string)
  (http : AxiosResponse.t + Thrown) (line : string) : World :=
  {| env_OPENAI_API_KEY := key;
     execSync := git_with diff;
     axios_post := fun _ _ _ => http;
     answer := line |}.

Definition sample_diff : string := "+console.log('x')".

(** The provider's payload for a rejected request. *)
Definition error_payload (code : string) : JsValue :=
  JObj [("error", JObj [("message", JStr "rejected"); ("code", JStr code)])].

(** The scenario of the spec: the staged diff [+console.log('x')], the
    provider's answer [feat: add debug log], and a line typed at the prompt. *)
Definition scenario (line : string) : World :=
  sample_world (Some "sk-test") sample_diff
    (inl (one_candidate "feat: add debug log")) line.

(** A tokenizer that counts ten thousand tokens in any text. *)
Definition verbose_tokens (s : string) : list N := repeat 0 (N.to_nat 10000).

(** The provider rejects the request with [status] and [payload]. *)
Definition rejected (status : N) (payload : JsValue) : AxiosResponse.t + Thrown :=
  inr (AxiosError
         ("Request failed with status code " ++ of_N status)
         (Some {| AxiosResponse.status := status;
                  AxiosResponse.data := payload |})).

(** A suggestion that holds a backslash followed by a double quote. *)
Definition backslash_quote_message : string :=
  "fix: escape " ++ String backslash (String dquote " in JSON strings").

(** The suggestion was obtained: the credential is set, the staged diff was
    read and is not blank, the token guard passed, the completion request
    succeeded and its first candidate holds the text [raw]. *)
Definition suggestion_obtained (encode : string -> list N) (w : World)
  (key diff : string) (response : AxiosResponse.t) (raw : string) : Prop :=
  env_OPENAI_API_KEY w = Some key /\
  key <> "" /\
  execSync w "git diff --cached" = inl diff /\
  trim diff <> "" /\
  promptTokens encode + diffTokens encode diff <= 16385 /\
  completion w key diff = inl response /\
  first_candidate (AxiosResponse.data response) = Some raw.

(** The trace of a run up to and including its confirmation prompt. *)
Definition trace_to_prompt (key diff raw : string) : list Event :=
  [ExecSync "git diff --cached";
   AxiosPost completions_url
     (request_body (generator key) (promptTemplate_text ++ diff))
     (request_headers (generator key));
   ConsoleLog (nl ++ "✅ Suggested commit message:" ++ nl);
   ConsoleLog (trim raw);
   Question confirm_query].

(** ** The ways a run ends *)

Definition missing_key_text : string :=
  "❌ OPENAI_API_KEY is not set. Please export it in your shell config.".

(** The request event of a run with credential [key] and staged diff [diff]. *)
Definition request_event (key diff : string) : Event :=
  AxiosPost completions_url
    (request_body (generator key) (promptTemplate_text ++ diff))
    (request_headers (generator key)).

(** Every run ends in one of six ways, each with its exit status and trace. *)
Inductive Ending (encode : string -> list N) (w : World) : Prop :=
| NoCredential :
    env_OPENAI_API_KEY w = None \/ env_OPENAI_API_KEY w = Some "" ->
    main encode w = (1, [Uncaught (ErrorObj missing_key_text)]) ->
    Ending encode w
| DiffFailed (key : string) (error : Thrown) :
    env_OPENAI_API_KEY w = Some key -> key <> "" ->
    execSync w "git diff --cached" = inr error ->
    main encode w =
      (1, [ExecSync "git diff --cached";
           ConsoleError ("❌ Failed to get git diff: " ++
                         messageOr error "Unknown error")]) ->
    Ending encode w
| NothingStaged (key diff : string) :
    env_OPENAI_API_KEY w = Some key -> key <> "" ->
    execSync w "git diff --cached" = inl diff ->
    trim diff = "" ->
    main encode w =
      (0, [ExecSync "git diff --cached"; ConsoleLog no_staged_notice]) ->
    Ending encode w
| TooLarge (key diff : string) :
    env_OPENAI_API_KEY w = Some key -> key <> "" ->
    execSync w "git diff --cached" = inl diff ->
    trim diff <> "" ->
    16385 < promptTokens encode + diffTokens encode diff ->
    main encode w =
      (1, [ExecSync "git diff --cached";
           ConsoleError
             (guard_message (promptTokens encode + diffTokens encode diff)
                16385 (diffTokens encode diff))]) ->
    Ending encode w
| RequestFailed (key diff text : string) (log : list Event) :
    env_OPENAI_API_KEY w = Some key -> key <> "" ->
    execSync w "git diff --cached" = inl diff ->
    trim diff <> "" ->
    promptTokens encode + diffTokens encode diff <= 16385 ->
    (forall response,
        completion w key diff = inl response ->
        first_candidate (AxiosResponse.data response) = None) ->
    log = [] \/ (exists v, log = [ConsoleLogValue v]) ->
    main encode w =
      (1, (ExecSync "git diff --cached" :: request_event key diff ::
           log ++ [ConsoleError text])%list) ->
    Ending encode w
| Suggested (key diff : string) (response : AxiosResponse.t) (raw : string) :
    suggestion_obtained encode w key diff response raw ->
    Ending encode w.

Definition is_fatal (e : Event) : bool :=
  match e with
  | ConsoleErrorFatal _ => true
  | _ => false
  end.

(** The reading back of an escaped message: a backslash followed by a double
    quote stands for the double quote. *)
Fixpoint unescape (s : string) : string :=
  match s with
  | EmptyString => EmptyString
  | String a r =>
    if Ascii.eqb a backslash then
      match r with
      | String b r' =>
        if Ascii.eqb b dquote then String dquote (unescape r')
        else String a (unescape r)
      | EmptyString => String a EmptyString
      end
    else String a (unescape r)
  end.

(** A byte that is neither white space nor part of a longer code point. *)
Definition visible_ascii (c : ascii) : bool :=
  (N_of_ascii c <? 128) && negb (ws1 c).

(** A repository where [git] fails on every command. *)
Definition git_broken (command : string) : string + Thrown :=
  inr (ErrorObj ("Command failed: " ++ command)).

(** A repository whose staged diff is [diff] and where committing fails. *)
Definition git_rejecting (diff : string) (command : string) : string + Thrown :=
  if String.eqb command "git diff --cached" then inl diff
  else inr (ErrorObj ("Command failed: " ++ command)).

(** [scenario], with a repository that refuses the commit. *)
Definition scenario_rejecting (line : string) : World :=
  {| env_OPENAI_API_KEY := Some "sk-test";
     execSync := git_rejecting sample_diff;
     axios_post := fun _ _ _ => inl (one_candidate "feat: add debug log");
     answer := line |}.

(** [scenario], outside a repository. *)
Definition scenario_broken : World :=
  {| env_OPENAI_API_KEY := Some "sk-test";
     execSync := git_broken;
     axios_post := fun _ _ _ => inl (one_candidate "feat: add debug log");
     answer := "y" |}.

(** ** The program with every behaviour of its collaborators

    [encode] of [gpt-tokenizer] throws on some texts (a text that holds a
    special token), and standard input can end before a line is typed: then
    readline never calls the callback of [question], the promise of
    [promptUser] never settles, and the process ends with status 0 when
    nothing is left to run.  [Full] is the program over a tokenizer that can
    throw and an input that can end; [main] above is its case of a tokenizer
    that returns and a line that is read. *)

(** The tokens of a text, where the tokenizer returns. *)
Definition total (tokenizer : string -> list N + Thrown) (text : string)
  : list N :=
  match tokenizer text with
  | inl tokens => tokens
  | inr _ => []
  end.

Module Full.

(** A computation that awaits a promise which never settles: nothing after
    it runs, no handler is called, and the process ends with status 0. *)
Definition never_settles {A : Type} : M A := (Exit 0, []).

Section Program.

(** [encode] of [gpt-tokenizer]: the token ids of a text, or what it throws. *)
Variable tokenizer : string -> list N + Thrown.

Variable w : World.

(** Standard input ends before a line is typed. *)
Variable input_ends : bool.

Definition encode (text : string) : M (list N) :=
  match tokenizer text with
  | inl tokens => ret tokens
  | inr error => throw error
  end.

(** [rl.question(query, callback)]: the callback gets the line typed, when
    there is one. *)
Definition question (query : string) : M string :=
  emit (Question query) ;;
  if input_ends then never_settles else ret (answer w).

Variable self : GitCommitGenerator.

Definition checkContextLength (diff : string) : M unit :=
  promptEncoded <- encode (promptTemplate self) ;;
  let promptTokens := N.of_nat (length promptEncoded) in
  diffEncoded <- encode diff ;;
  let diffTokens := N.of_nat (length diffEncoded) in
  let totalTokens := promptTokens + diffTokens in
  let max := OpenAIConfig.maxContextLength (openaiConfig self) in
  if max <? totalTokens then
    throw (ErrorObj (guard_message totalTokens max diffTokens))
  else ret tt.

Definition generateCommitMessage (diff : string) : M CommitMessage.t :=
  checkContextLength diff ;;
  let prompt := promptTemplate self ++ diff in
  try_catch
    (response <- post w completions_url
                      (request_body self prompt) (request_headers self) ;;
     choices <- get (AxiosResponse.data response) (Name "choices") ;;
     choice <- get choices (Index 0) ;;
     message <- get choice (Name "message") ;;
     content <- get message (Name "content") ;;
     trimmed <- call_trim content ;;
     ret {| CommitMessage.content := trimmed |})
    (fun error =>
       match error with
       | AxiosError message response =>
         let status := option_map AxiosResponse.status response in
         let data :=
           match response with
           | Some r => AxiosResponse.data r
           | None => JUndefined
           end in
         if match status with Some n => n =? 400 | None => false end &&
            strictEqStr (optGet (optGet data (Name "error")) (Name "code"))
                        "context_length_exceeded"
         then throw (ErrorObj provider_too_large_message)
         else
           emit (ConsoleLogValue data) ;;
           text <- interpolate (if truthy data then data else JStr message) ;;
           throw (ErrorObj ("❌ Error generating commit message: " ++ text))
       | _ =>
         throw (ErrorObj ("❌ Unexpected error: " ++
                          messageOr error "Unknown error"))
       end).

Definition promptUser : M bool :=
  line <- question confirm_query ;;
  ret (String.eqb (toLowerCase line) "y").

Definition run : M unit :=
  try_catch
    (diff <- getStagedDiff w ;;
     if GitDiff.isEmpty diff then
       console_log no_staged_notice
     else
       commitMessage <- generateCommitMessage (GitDiff.content diff) ;;
       console_log (nl ++ "✅ Suggested commit message:" ++ nl) ;;
       console_log (CommitMessage.content commitMessage) ;;
       shouldCommit <- promptUser ;;
       if shouldCommit then
         commitChanges w (CommitMessage.content commitMessage)
       else
         console_log "🛑 Commit cancelled.")
    (fun error =>
       console_error (messageOr error "An unexpected error occurred") ;;
       process_exit 1).

End Program.

Section Process.

Variable tokenizer : string -> list N + Thrown.
Variable w : World.
Variable input_ends : bool.

(** [new GitCommitGenerator().run().catch(...)] *)
Definition script : M unit :=
  self <- new_GitCommitGenerator w ;;
  try_catch
    (run tokenizer w input_ends self)
    (fun error => emit (ConsoleErrorFatal error) ;; process_exit 1).

(** The process from start to end: its exit status and its trace. *)
Definition main : N * list Event :=
  match script with
  | (Return _, t) => (0, t)
  | (Throw error, t) => (1, (t ++ [Uncaught error])%list)
  | (Exit code, t) => (code, t)
  end.

End Process.

(** The suggestion was obtained: as [suggestion_obtained], with the
    tokenizer returning for the template and for the diff. *)
Definition suggestion_obtained (tokenizer : string -> list N + Thrown)
  (w : World) (key diff : string) (response : AxiosResponse.t) (raw : string)
  : Prop :=
  env_OPENAI_API_KEY w = Some key /\
  key <> "" /\
  execSync w "git diff --cached" = inl diff /\
  trim diff <> "" /\
  (exists promptEncoded diffEncoded,
      tokenizer promptTemplate_text = inl promptEncoded /\
      tokenizer diff = inl diffEncoded /\
      N.of_nat (length promptEncoded) + N.of_nat (length diffEncoded) <= 16385) /\
  completion w key diff = inl response /\
  first_candidate (AxiosResponse.data response) = Some raw.

End Full.

(** A tokenizer that refuses the end-of-text token and counts one token per
    byte elsewhere. *)
Definition strict_tokens (text : string) : list N + Thrown :=
  if includes "<|endoftext|>" text
  then inr (ErrorObj "Disallowed special token found: <|endoftext|>")
  else inl (byte_tokens text).

(** * Properties *)

(** ** Strings *)

Lemma lower_is_y (c : ascii) :
  lower c = "y"%char <-> c = "y"%char \/ c = "Y"%char.
Proof.
  destruct c as [[] [] [] [] [] [] [] []]; vm_compute;
    (split; [ intro H; first [ discriminate H | now left | now right ]
            | intros [H | H]; first [ discriminate H | reflexivity ] ]).
Qed.

Lemma toLowerCase_is_y (s : string) :
  toLowerCase s = "y" <-> s = "y" \/ s = "Y".
Proof.
  destruct s as [| c [| d r]]; cbn [toLowerCase].
  - split; [ discriminate | intros [H | H]; discriminate H ].
  - split.
    + intro H. injection H as H. apply lower_is_y in H.
      destruct H as [-> | ->]; auto.
    + intros [H | H]; injection H as ->; reflexivity.
  - split; [ discriminate | intros [H | H]; discriminate H ].
Qed.

Example trim_ex :
  trim ("  feat: add x " ++ nl) = "feat: add x" /\
  trim (String (ascii_of_N 194) (String (ascii_of_N 160) " a b ")) = "a b" /\
  trim (nl ++ String (ascii_of_N 9) " ") = "".
Proof. repeat split. Qed.

Example toLowerCase_ex :
  toLowerCase "Y" = "y" /\ toLowerCase "YES" = "yes" /\ toLowerCase "" = "".
Proof. repeat split. Qed.

Lemma startsWith_app (p s : string) : startsWith p (p ++ s) = true.
Proof.
  induction p as [| a p IH]; cbn [startsWith append]; [ reflexivity |].
  now rewrite Ascii.eqb_refl, IH.
Qed.

Lemma includes_app (p pre post : string) :
  includes p (pre ++ p ++ post) = true.
Proof.
  induction pre as [| a pre IH].
  - cbn [append]. destruct (p ++ post) eqn:E; cbn [includes];
      rewrite <- E, startsWith_app; reflexivity.
  - cbn [append includes]. rewrite IH. apply orb_true_r.
Qed.

Lemma includes_at (pre p post s : string) :
  s = pre ++ p ++ post -> includes p s = true.
Proof. intros ->. apply includes_app. Qed.

Lemma append_assoc (a b c : string) : (a ++ b) ++ c = a ++ b ++ c.
Proof. induction a as [| x a IH]; cbn [append]; [ | rewrite IH ]; reflexivity. Qed.

Lemma append_empty_r (a : string) : a ++ "" = a.
Proof. induction a as [| x a IH]; cbn [append]; [ | rewrite IH ]; reflexivity. Qed.

Lemma concat_empty_cons (x : string) (l : list string) :
  String.concat "" (x :: l) = x ++ String.concat "" l.
Proof.
  destruct l as [| y l]; cbn [String.concat append];
    [ now rewrite append_empty_r | reflexivity ].
Qed.

Lemma replace_g_spec (message : string) :
  replace_g dquote (String backslash (String dquote "")) message
  = escaped_spec message.
Proof.
  unfold escaped_spec.
  induction message as [| c r IH]; [ reflexivity |].
  cbn [replace_g list_ascii_of_string map].
  rewrite concat_empty_cons, <- IH. unfold escape_char.
  destruct (Ascii.eqb c dquote); reflexivity.
Qed.

(** ** The steps of the program *)

Section Steps.

Variable encode : string -> list N.
Variable w : World.

Lemma exec_eq (command : string) :
  exec w command =
  match execSync w command with
  | inl out => (Return out, [ExecSync command])
  | inr error => (Throw error, [ExecSync command])
  end.
Proof. unfold exec. destruct (execSync w command); reflexivity. Qed.

Lemma getStagedDiff_eq :
  getStagedDiff w =
  match execSync w "git diff --cached" with
  | inl content =>
    (Return {| GitDiff.content := content;
               GitDiff.isEmpty := String.eqb (trim content) "" |},
     [ExecSync "git diff --cached"])
  | inr error =>
    (Throw (ErrorObj ("❌ Failed to get git diff: " ++
                      messageOr error "Unknown error")),
     [ExecSync "git diff --cached"])
  end.
Proof.
  unfold getStagedDiff. rewrite exec_eq.
  destruct (execSync w "git diff --cached"); cbn; [ | reflexivity ].
  now rewrite negb_involutive.
Qed.

Lemma promptUser_eq :
  promptUser w =
  (Return (String.eqb (toLowerCase (answer w)) "y"), [Question confirm_query]).
Proof. reflexivity. Qed.

Lemma commitChanges_eq (message : string) :
  commitChanges w message =
  match execSync w (commit_command message) with
  | inl _ => (Return tt, [ExecSync (commit_command message)])
  | inr error =>
    (Throw (ErrorObj ("❌ Failed to commit: " ++ messageOr error "Unknown error")),
     [ExecSync (commit_command message)])
  end.
Proof.
  unfold commitChanges. rewrite exec_eq.
  destruct (execSync w (commit_command message)); reflexivity.
Qed.

End Steps.

(** ** Obtaining the suggestion *)

(** One step of the monad: binds and handlers applied to what is known. *)
Ltac js_step := cbn [bind ret emit throw try_catch typeError process_exit app].

Section Generate.

Variable encode : string -> list N.
Variable w : World.
Variable self : GitCommitGenerator.

Let max : N := OpenAIConfig.maxContextLength (openaiConfig self).
Let total (diff : string) : N :=
  N.of_nat (length (encode (promptTemplate self))) +
  N.of_nat (length (encode diff)).
Let the_post (diff : string) : Event :=
  AxiosPost completions_url
    (request_body self (promptTemplate self ++ diff)) (request_headers self).
Let the_answer (diff : string) : AxiosResponse.t + Thrown :=
  axios_post w completions_url
    (request_body self (promptTemplate self ++ diff)) (request_headers self).

Lemma generate_guard_fail (diff : string) :
  max < total diff ->
  generateCommitMessage encode w self diff =
  (Throw (ErrorObj (guard_message (total diff) max
                      (N.of_nat (length (encode diff))))), []).
Proof.
  intro H. unfold generateCommitMessage, checkContextLength.
  fold max. fold (total diff).
  apply N.ltb_lt in H. rewrite H. reflexivity.
Qed.

Lemma generate_ok (diff : string) (response : AxiosResponse.t) (raw : string) :
  total diff <= max ->
  the_answer diff = inl response ->
  first_candidate (AxiosResponse.data response) = Some raw ->
  generateCommitMessage encode w self diff =
  (Return {| CommitMessage.content := trim raw |}, [the_post diff]).
Proof.
  intros H Hp Hc. unfold generateCommitMessage, checkContextLength.
  fold max. fold (total diff).
  apply N.ltb_ge in H. rewrite H.
  unfold post. unfold the_answer in Hp.
  js_step. rewrite Hp. js_step.
  unfold first_candidate in Hc. unfold get.
  destruct (lookup (AxiosResponse.data response) (Name "choices")) as [choices |];
    [ js_step | discriminate Hc ].
  destruct (lookup choices (Index 0)) as [choice |];
    [ js_step | discriminate Hc ].
  destruct (lookup choice (Name "message")) as [message |];
    [ js_step | discriminate Hc ].
  destruct (lookup message (Name "content")) as [[| | | | s | |] |];
    try discriminate Hc.
  injection Hc as ->. reflexivity.
Qed.

Lemma generate_no_candidate (diff : string) (response : AxiosResponse.t) :
  total diff <= max ->
  the_answer diff = inl response ->
  first_candidate (AxiosResponse.data response) = None ->
  exists cause,
    generateCommitMessage encode w self diff =
    (Throw (ErrorObj ("❌ Unexpected error: " ++ cause)), [the_post diff]).
Proof.
  intros H Hp Hc. unfold generateCommitMessage, checkContextLength.
  fold max. fold (total diff).
  apply N.ltb_ge in H. rewrite H.
  unfold post. unfold the_answer in Hp.
  js_step. rewrite Hp. js_step.
  unfold first_candidate in Hc. unfold get.
  destruct (lookup (AxiosResponse.data response) (Name "choices")) as [choices |];
    [ js_step | eexists; reflexivity ].
  destruct (lookup choices (Index 0)) as [choice |];
    [ js_step | eexists; reflexivity ].
  destruct (lookup choice (Name "message")) as [message |];
    [ js_step | eexists; reflexivity ].
  destruct (lookup message (Name "content")) as [[| | | | s | |] |];
    try discriminate Hc; eexists; reflexivity.
Qed.

Lemma generate_rejected (diff : string) (error : Thrown) :
  total diff <= max ->
  the_answer diff = inr error ->
  exists text log,
    generateCommitMessage encode w self diff =
    (Throw (ErrorObj text), the_post diff :: log) /\
    (log = [] \/ exists v, log = [ConsoleLogValue v]).
Proof.
  intros H Hp. unfold generateCommitMessage, checkContextLength.
  fold max. fold (total diff).
  apply N.ltb_ge in H. rewrite H.
  unfold post. unfold the_answer in Hp.
  js_step. rewrite Hp. js_step.
  destruct error as [m | m r |]; js_step.
  - do 2 eexists. split; [ reflexivity | now left ].
  - match goal with |- context [if ?c && ?d then _ else _] => destruct (c && d) end;
      js_step.
    + do 2 eexists. split; [ reflexivity | now left ].
    + unfold interpolate.
      match goal with |- context [toString ?v] => destruct (toString v) end;
        js_step; do 2 eexists;
        (split; [ reflexivity | right; eexists; reflexivity ]).
  - do 2 eexists. split; [ reflexivity | now left ].
Qed.

(** Whatever the collaborators do, either the suggestion is there, after
    exactly one request, or an error was thrown, and nothing but that request
    and the log of its payload has happened. *)
Lemma generate_shape (diff : string) :
  (exists response raw,
      total diff <= max /\
      the_answer diff = inl response /\
      first_candidate (AxiosResponse.data response) = Some raw /\
      generateCommitMessage encode w self diff =
      (Return {| CommitMessage.content := trim raw |}, [the_post diff]))
  \/
  (exists text log,
      generateCommitMessage encode w self diff = (Throw (ErrorObj text), log) /\
      prompts log = [] /\ commit_invocations log = [] /\
      (max < total diff -> log = [])).
Proof.
  destruct (N.lt_ge_cases max (total diff)) as [Hlt | Hge].
  - right. do 2 eexists. split; [ apply generate_guard_fail, Hlt | ].
    split; [ reflexivity | ]. split; reflexivity.
  - destruct (the_answer diff) as [response | error] eqn:Hp.
    + destruct (first_candidate (AxiosResponse.data response)) as [raw |] eqn:Hc.
      * left. exists response, raw.
        split; [ exact Hge | ]. split; [ reflexivity | ]. split; [ exact Hc | ].
        exact (generate_ok diff response raw Hge Hp Hc).
      * right. destruct (generate_no_candidate diff response Hge Hp Hc) as [cause E].
        do 2 eexists. split; [ exact E | ].
        split; [ reflexivity | ]. split; [ reflexivity | ]. intro; lia.
    + right. destruct (generate_rejected diff error Hge Hp) as (text & log & E & Hlog).
      do 2 eexists. split; [ exact E | ].
      destruct Hlog as [-> | [v ->]];
        (split; [ reflexivity | ]; split; [ reflexivity | ]; intro; lia).
Qed.

End Generate.

(** ** The whole run *)

Section Run.

Variable encode : string -> list N.
Variable w : World.

Lemma new_present (key : string) :
  env_OPENAI_API_KEY w = Some key -> key <> "" ->
  new_GitCommitGenerator w = (Return (generator key), []).
Proof.
  intros E Hk. unfold new_GitCommitGenerator. rewrite E.
  apply String.eqb_neq in Hk. rewrite Hk. reflexivity.
Qed.

Lemma new_missing :
  env_OPENAI_API_KEY w = None \/ env_OPENAI_API_KEY w = Some "" ->
  new_GitCommitGenerator w =
  (Throw (ErrorObj "❌ OPENAI_API_KEY is not set. Please export it in your shell config."), []).
Proof. intros [E | E]; unfold new_GitCommitGenerator; rewrite E; reflexivity. Qed.

(** [run], symbolically executed down to [generateCommitMessage]. *)
Lemma run_eq (self : GitCommitGenerator) :
  run encode w self =
  match execSync w "git diff --cached" with
  | inr error =>
    (Exit 1,
     [ExecSync "git diff --cached";
      ConsoleError ("❌ Failed to get git diff: " ++ messageOr error "Unknown error")])
  | inl diff =>
    if String.eqb (trim diff) "" then
      (Return tt, [ExecSync "git diff --cached"; ConsoleLog no_staged_notice])
    else
      match generateCommitMessage encode w self diff with
      | (Return commitMessage, t) =>
        let message := CommitMessage.content commitMessage in
        let shown :=
          [ConsoleLog (nl ++ "✅ Suggested commit message:" ++ nl);
           ConsoleLog message; Question confirm_query] in
        if String.eqb (toLowerCase (answer w)) "y" then
          match execSync w (commit_command message) with
          | inl _ =>
            (Return tt,
             ExecSync "git diff --cached" ::
             t ++ shown ++ [ExecSync (commit_command message)])
          | inr error =>
            (Exit 1,
             ExecSync "git diff --cached" ::
             t ++ shown ++
             [ExecSync (commit_command message);
              ConsoleError ("❌ Failed to commit: " ++ messageOr error "Unknown error")])
          end
        else
          (Return tt,
           ExecSync "git diff --cached" ::
           t ++ shown ++ [ConsoleLog "🛑 Commit cancelled."])
      | (Throw error, t) =>
        (Exit 1,
         ExecSync "git diff --cached" ::
         t ++ [ConsoleError (messageOr error "An unexpected error occurred")])
      | (Exit code, t) => (Exit code, ExecSync "git diff --cached" :: t)
      end
  end%list.
Proof.
  unfold run. rewrite getStagedDiff_eq.
  destruct (execSync w "git diff --cached") as [diff | error]; [ | reflexivity ].
  js_step. cbn [GitDiff.isEmpty GitDiff.content].
  destruct (String.eqb (trim diff) ""); [ reflexivity | ].
  destruct (generateCommitMessage encode w self diff) as [[cm | error | code] t];
    js_step; [ | reflexivity | reflexivity ].
  unfold console_log. rewrite promptUser_eq. js_step.
  destruct (String.eqb (toLowerCase (answer w)) "y").
  - rewrite commitChanges_eq.
    destruct (execSync w (commit_command (CommitMessage.content cm)));
      js_step; cbv zeta; cbn [app]; [ reflexivity | ].
    unfold console_error. js_step. rewrite <- app_assoc. reflexivity.
  - reflexivity.
Qed.

Lemma main_present (key : string) :
  env_OPENAI_API_KEY w = Some key -> key <> "" ->
  main encode w =
  match run encode w (generator key) with
  | (Return _, t) => (0, t)
  | (Throw error, t) => (1, t ++ [ConsoleErrorFatal error])
  | (Exit code, t) => (code, t)
  end%list.
Proof.
  intros E Hk. unfold main, script. rewrite (new_present key E Hk). js_step.
  destruct (run encode w (generator key)) as [[[] | error | code] t];
    js_step; reflexivity.
Qed.

Lemma main_missing :
  env_OPENAI_API_KEY w = None \/ env_OPENAI_API_KEY w = Some "" ->
  main encode w =
  (1, [Uncaught (ErrorObj "❌ OPENAI_API_KEY is not set. Please export it in your shell config.")]).
Proof. intro H. unfold main, script. rewrite (new_missing H). reflexivity. Qed.

Lemma commit_invocations_app (a b : list Event) :
  commit_invocations (a ++ b) = (commit_invocations a ++ commit_invocations b)%list.
Proof.
  induction a as [| e a IH]; [ reflexivity |].
  destruct e; cbn [app commit_invocations]; try exact IH.
  destruct (startsWith "git commit" command); cbn [app]; now rewrite IH.
Qed.

Lemma prompts_app (a b : list Event) :
  prompts (a ++ b) = (prompts a ++ prompts b)%list.
Proof. apply filter_app. Qed.

Lemma commit_command_is_commit (message : string) :
  startsWith "git commit" (commit_command message) = true.
Proof. reflexivity. Qed.

(** The run once the suggestion is there: its trace up to the prompt is
    fixed, and the line typed decides the rest. *)
Lemma main_obtained (key diff : string) (response : AxiosResponse.t)
  (raw : string) :
  suggestion_obtained encode w key diff response raw ->
  main encode w =
  if String.eqb (toLowerCase (answer w)) "y" then
    match execSync w (commit_command (trim raw)) with
    | inl _ =>
      (0, (trace_to_prompt key diff raw ++
           [ExecSync (commit_command (trim raw))])%list)
    | inr error =>
      (1, (trace_to_prompt key diff raw ++
           [ExecSync (commit_command (trim raw));
            ConsoleError ("❌ Failed to commit: " ++
                          messageOr error "Unknown error")])%list)
    end
  else
    (0, (trace_to_prompt key diff raw ++
         [ConsoleLog "🛑 Commit cancelled."])%list).
Proof.
  intros (E & Hk & Hd & Hne & Hge & Hp & Hc).
  rewrite (main_present key E Hk), run_eq, Hd.
  apply String.eqb_neq in Hne. rewrite Hne.
  rewrite (generate_ok encode w (generator key) diff response raw Hge Hp Hc).
  cbv zeta. cbn [CommitMessage.content].
  destruct (String.eqb (toLowerCase (answer w)) "y"); [ | reflexivity ].
  destruct (execSync w (commit_command (trim raw))); reflexivity.
Qed.

(** Either the suggestion was obtained, or the run never prompted and never
    committed. *)
Lemma main_shape :
  (exists key diff response raw,
      suggestion_obtained encode w key diff response raw)
  \/
  (prompts (snd (main encode w)) = [] /\
   commit_invocations (snd (main encode w)) = []).
Proof.
  destruct (env_OPENAI_API_KEY w) as [key |] eqn:E;
    [ | right; rewrite (main_missing (or_introl E)); split; reflexivity ].
  destruct (String.eqb_spec key "") as [-> | Hk];
    [ right; rewrite (main_missing (or_intror E)); split; reflexivity | ].
  destruct (execSync w "git diff --cached") as [diff | error] eqn:Hd.
  2:{ right. rewrite (main_present key E Hk), run_eq, Hd. split; reflexivity. }
  destruct (String.eqb_spec (trim diff) "") as [He | Hne].
  { right. rewrite (main_present key E Hk), run_eq, Hd, He. split; reflexivity. }
  destruct (generate_shape encode w (generator key) diff)
    as [(response & raw & Hge & Hp & Hc & _) | (text & log & G & Hq & Hci & _)].
  - left. exists key, diff, response, raw. repeat split; assumption.
  - right. rewrite (main_present key E Hk), run_eq, Hd.
    apply String.eqb_neq in Hne. rewrite Hne, G. cbn [snd].
    change (ExecSync "git diff --cached" :: log ++ ?x)%list
      with ([ExecSync "git diff --cached"] ++ log ++ x)%list.
    rewrite !prompts_app, !commit_invocations_app, Hq, Hci. split; reflexivity.
Qed.

End Run.

(** ** The confirmation prompt and the commit *)

Lemma question_in_prompts (t : list Event) (q : string) :
  In (Question q) t -> prompts t <> [].
Proof.
  intros H E.
  assert (Hin : In (Question q) (prompts t)) by (apply filter_In; now split).
  rewrite E in Hin. exact Hin.
Qed.

Lemma commit_invocations_to_prompt (key diff raw : string) (rest : list Event) :
  commit_invocations (trace_to_prompt key diff raw ++ rest) =
  commit_invocations rest.
Proof. reflexivity. Qed.

(** The accept path as the code runs it: in every run that reaches the
    confirmation prompt and reads the line [y], the commit is invoked exactly
    once; its message is the text of the first candidate of the completion
    response, trimmed, with a backslash put before each of its double
    quotes. *)
Lemma accept_path_commits_once (encode : string -> list N) (w : World) :
  In (Question confirm_query) (snd (main encode w)) ->
  answer w = "y" ->
  exists key diff response raw,
    suggestion_obtained encode w key diff response raw /\
    commit_invocations (snd (main encode w)) = [commit_command (trim raw)] /\
    commit_command (trim raw) =
      "git commit -m " ++
      String dquote (escaped_spec (trim raw) ++ String dquote "").
Proof.
  intros Hq Hy.
  destruct (main_shape encode w) as [(key & diff & response & raw & Ho) | [Hp _]];
    [ | now apply question_in_prompts in Hq ].
  exists key, diff, response, raw.
  split; [ exact Ho | ].
  rewrite <- replace_g_spec.
  split; [ | reflexivity ].
  rewrite (main_obtained encode w key diff response raw Ho), Hy.
  change (String.eqb (toLowerCase "y") "y") with true. cbv iota.
  destruct (execSync w (commit_command (trim raw))); cbn [snd];
    rewrite commit_invocations_to_prompt; cbn [commit_invocations];
    rewrite commit_command_is_commit; reflexivity.
Qed.

(** Where the message has no backslash, the replacement does what it is
    there for: the shell finds no double quote that ends the string early. *)
Lemma no_live_quote_without_backslash (message : string) :
  includes (String backslash "") message = false ->
  shell_live_quote false (escaped_spec message) = false.
Proof.
  rewrite <- replace_g_spec.
  induction message as [| c r IH]; [ reflexivity |].
  cbn [includes startsWith replace_g]. rewrite andb_true_r.
  destruct (Ascii.eqb backslash c) eqn:Eb; cbn [orb]; [ discriminate |].
  intro H. rewrite Ascii.eqb_sym in Eb.
  destruct (Ascii.eqb c dquote) eqn:Eq.
  - cbn [append shell_live_quote].
    change (Ascii.eqb backslash backslash) with true. cbv iota.
    now apply IH.
  - cbn [shell_live_quote]. rewrite Eb, Eq. now apply IH.
Qed.

(** C1 — Accept path, at a message the escaping fails on: the completion
    client returns a text that holds a backslash followed by a double quote,
    the user enters [y], and the commit is invoked once with the trimmed
    text; the replacement puts a backslash before the double quote and leaves
    the message's own backslash, so in the command line the two backslashes
    pair up and the double quote of the message ends the shell string: it is
    not escaped. *)
Theorem accept_path_leaves_a_live_quote :
  first_candidate (AxiosResponse.data (one_candidate (" " ++ backslash_quote_message ++ nl)))
    = Some (" " ++ backslash_quote_message ++ nl) /\
  trim (" " ++ backslash_quote_message ++ nl) = backslash_quote_message /\
  main byte_tokens
    (sample_world (Some "sk-test") sample_diff
       (inl (one_candidate (" " ++ backslash_quote_message ++ nl))) "y") =
    (0, (trace_to_prompt "sk-test" sample_diff backslash_quote_message ++
         [ExecSync (commit_command backslash_quote_message)])%list) /\
  commit_command backslash_quote_message =
    "git commit -m " ++
    String dquote
      ("fix: escape " ++
       String backslash (String backslash (String dquote " in JSON strings")) ++
       String dquote "") /\
  shell_live_quote false
    ("fix: escape " ++
     String backslash (String backslash (String dquote " in JSON strings")))
    = true.
Proof. vm_compute. repeat split. Qed.

(** The scenario of the spec, run: the commit step receives exactly the
    suggested message. *)
Example round_trip :
  main byte_tokens (scenario "y") =
  (0, (trace_to_prompt "sk-test" sample_diff "feat: add debug log" ++
       [ExecSync ("git commit -m " ++
                  String dquote ("feat: add debug log" ++ String dquote ""))])%list).
Proof. vm_compute. reflexivity. Qed.

(** C2, as stated, fails on the line [Y]: the comparison is made after
    lower-casing, so [Y] is accepted and the commit is invoked. *)
Lemma uppercase_Y_is_accepted :
  answer (scenario "Y") = "Y" /\
  fst (promptUser (scenario "Y")) = Return true /\
  main byte_tokens (scenario "Y") =
  (0, (trace_to_prompt "sk-test" sample_diff "feat: add debug log" ++
       [ExecSync ("git commit -m " ++
                  String dquote ("feat: add debug log" ++ String dquote ""))])%list).
Proof. split; [ reflexivity | split; [ reflexivity | vm_compute; reflexivity ] ]. Qed.

(** C2 — Confirmation semantics, amended: the line read at the prompt is
    lower-cased and compared with [y], so [y] and [Y] accept and every other
    line (the empty line, [yes], [n], ...) declines; a run that prompted and
    was declined invokes no commit and ends with status 0. *)
Theorem confirmation_semantics (encode : string -> list N) (w : World) :
  (answer w = "y" \/ answer w = "Y" ->
   promptUser w = (Return true, [Question confirm_query])) /\
  (answer w <> "y" -> answer w <> "Y" ->
   promptUser w = (Return false, [Question confirm_query])) /\
  (In (Question confirm_query) (snd (main encode w)) ->
   answer w <> "y" -> answer w <> "Y" ->
   commit_invocations (snd (main encode w)) = [] /\
   fst (main encode w) = 0).
Proof.
  assert (Hno : answer w <> "y" -> answer w <> "Y" ->
                String.eqb (toLowerCase (answer w)) "y" = false).
  { intros H1 H2. apply String.eqb_neq. intro H.
    apply toLowerCase_is_y in H. tauto. }
  split; [ | split ].
  - intro H. apply toLowerCase_is_y in H. rewrite promptUser_eq, H. reflexivity.
  - intros H1 H2. now rewrite promptUser_eq, Hno.
  - intros Hq H1 H2.
    destruct (main_shape encode w) as [(key & diff & response & raw & Ho) | [Hp _]];
      [ | now apply question_in_prompts in Hq ].
    rewrite (main_obtained encode w key diff response raw Ho), Hno by assumption.
    split; reflexivity.
Qed.

Lemma confirmation_semantics_witness :
  promptUser (scenario "y") = (Return true, [Question confirm_query]) /\
  promptUser (scenario "yes") = (Return false, [Question confirm_query]) /\
  commit_invocations (snd (main byte_tokens (scenario "yes"))) = [] /\
  fst (main byte_tokens (scenario "yes")) = 0.
Proof.
  split; [ | split ].
  - apply (proj1 (confirmation_semantics byte_tokens (scenario "y"))).
    left. reflexivity.
  - apply (proj1 (proj2 (confirmation_semantics byte_tokens (scenario "yes"))));
      discriminate.
  - apply (proj2 (proj2 (confirmation_semantics byte_tokens (scenario "yes")))).
    + vm_compute. do 4 right. left. reflexivity.
    + discriminate.
    + discriminate.
Defined.

(** ** The guards before the request *)

Lemma guard_message_carries (total max diff : N) :
  includes ("- Total tokens: " ++ of_N total ++ nl)
    (guard_message total max diff) = true /\
  includes ("- Maximum allowed: " ++ of_N max ++ nl)
    (guard_message total max diff) = true /\
  includes ("- Diff tokens: " ++ of_N diff ++ nl)
    (guard_message total max diff) = true.
Proof.
  unfold guard_message. split; [ | split ].
  - apply includes_at with
      (pre := too_large_headline ++ nl)
      (post := "- Maximum allowed: " ++ of_N max ++ nl ++
               "- Diff tokens: " ++ of_N diff ++ nl ++ nl ++ too_large_advice).
    rewrite !append_assoc. reflexivity.
  - apply includes_at with
      (pre := too_large_headline ++ nl ++ "- Total tokens: " ++ of_N total ++ nl)
      (post := "- Diff tokens: " ++ of_N diff ++ nl ++ nl ++ too_large_advice).
    rewrite !append_assoc. reflexivity.
  - apply includes_at with
      (pre := too_large_headline ++ nl ++ "- Total tokens: " ++ of_N total ++ nl ++
              "- Maximum allowed: " ++ of_N max ++ nl)
      (post := nl ++ too_large_advice).
    rewrite !append_assoc. reflexivity.
Qed.

(** C3 — Context guard: when the token count of the template plus the token
    count of the diff exceeds the configured ceiling, [generateCommitMessage]
    throws before it has done anything (no request is in its trace), the run
    prints the error and exits with status 1 without any network call, and
    the message carries the total, the ceiling and the diff's count. *)
Theorem context_guard_rejects (encode : string -> list N) (w : World)
  (key diff : string) :
  env_OPENAI_API_KEY w = Some key -> key <> "" ->
  execSync w "git diff --cached" = inl diff -> trim diff <> "" ->
  16385 < promptTokens encode + diffTokens encode diff ->
  generateCommitMessage encode w (generator key) diff =
    (Throw (ErrorObj
              (guard_message (promptTokens encode + diffTokens encode diff)
                 16385 (diffTokens encode diff))), []) /\
  main encode w =
    (1, [ExecSync "git diff --cached";
         ConsoleError
           (guard_message (promptTokens encode + diffTokens encode diff)
              16385 (diffTokens encode diff))]) /\
  network_calls (snd (main encode w)) = [] /\
  includes ("- Total tokens: " ++
            of_N (promptTokens encode + diffTokens encode diff) ++ nl)
    (guard_message (promptTokens encode + diffTokens encode diff)
       16385 (diffTokens encode diff)) = true /\
  includes ("- Maximum allowed: " ++ of_N 16385 ++ nl)
    (guard_message (promptTokens encode + diffTokens encode diff)
       16385 (diffTokens encode diff)) = true /\
  includes ("- Diff tokens: " ++ of_N (diffTokens encode diff) ++ nl)
    (guard_message (promptTokens encode + diffTokens encode diff)
       16385 (diffTokens encode diff)) = true.
Proof.
  intros E Hk Hd Hne Hgt.
  pose proof (generate_guard_fail encode w (generator key) diff Hgt) as G.
  change (generateCommitMessage encode w (generator key) diff =
          (Throw (ErrorObj
                    (guard_message (promptTokens encode + diffTokens encode diff)
                       16385 (diffTokens encode diff))), [])) in G.
  assert (M : main encode w =
              (1, [ExecSync "git diff --cached";
                   ConsoleError
                     (guard_message (promptTokens encode + diffTokens encode diff)
                        16385 (diffTokens encode diff))])).
  { rewrite (main_present encode w key E Hk), run_eq, Hd.
    apply String.eqb_neq in Hne. rewrite Hne, G. reflexivity. }
  split; [ exact G | ]. split; [ exact M | ]. split; [ now rewrite M | ].
  apply guard_message_carries.
Qed.

Lemma context_guard_rejects_witness :
  main verbose_tokens (scenario "y") =
    (1, [ExecSync "git diff --cached";
         ConsoleError (guard_message 20000 16385 10000)]) /\
  network_calls (snd (main verbose_tokens (scenario "y"))) = [] /\
  includes ("- Total tokens: " ++ "20000" ++ nl)
    (guard_message 20000 16385 10000) = true.
Proof.
  pose proof (context_guard_rejects verbose_tokens (scenario "y")
                "sk-test" sample_diff) as H.
  destruct H as (_ & M & Hn & Ht & _).
  - reflexivity.
  - discriminate.
  - reflexivity.
  - vm_compute. discriminate.
  - vm_compute. reflexivity.
  - split; [ exact M | ]. split; [ exact Hn | exact Ht ].
Defined.



(** C7 — Missing credential: when [OPENAI_API_KEY] is absent, the
    constructor throws at top level; the process ends with status 1, what it
    reports is the instruction to set the variable, and there is no network
    call and no prompt. *)
Theorem missing_credential_exits (encode : string -> list N) (w : World) :
  env_OPENAI_API_KEY w = None ->
  main encode w =
    (1, [Uncaught (ErrorObj "❌ OPENAI_API_KEY is not set. Please export it in your shell config.")]) /\
  fst (main encode w) <> 0 /\
  network_calls (snd (main encode w)) = [] /\
  prompts (snd (main encode w)) = [] /\
  commit_invocations (snd (main encode w)) = [].
Proof.
  intro E. rewrite (main_missing encode w (or_introl E)).
  repeat split; discriminate.
Qed.

Lemma missing_credential_exits_witness :
  main byte_tokens (sample_world None sample_diff
                      (inl (one_candidate "feat: x")) "y") =
    (1, [Uncaught (ErrorObj "❌ OPENAI_API_KEY is not set. Please export it in your shell config.")]) /\
  fst (main byte_tokens (sample_world None sample_diff
                           (inl (one_candidate "feat: x")) "y")) <> 0 /\
  network_calls (snd (main byte_tokens (sample_world None sample_diff
                           (inl (one_candidate "feat: x")) "y"))) = [] /\
  prompts (snd (main byte_tokens (sample_world None sample_diff
                           (inl (one_candidate "feat: x")) "y"))) = [] /\
  commit_invocations (snd (main byte_tokens (sample_world None sample_diff
                           (inl (one_candidate "feat: x")) "y"))) = [].
Proof.
  apply (missing_credential_exits byte_tokens
           (sample_world None sample_diff (inl (one_candidate "feat: x")) "y")).
  reflexivity.
Defined.

(** ** Errors of the completion request *)

Section Rejections.

Variable encode : string -> list N.
Variable w : World.
Variables key diff : string.

Hypothesis Hkey : env_OPENAI_API_KEY w = Some key.
Hypothesis Hkey_set : key <> "".
Hypothesis Hdiff : execSync w "git diff --cached" = inl diff.
Hypothesis Hstaged : trim diff <> "".
Hypothesis Hfits : promptTokens encode + diffTokens encode diff <= 16385.

Let the_post : Event :=
  AxiosPost completions_url
    (request_body (generator key) (promptTemplate_text ++ diff))
    (request_headers (generator key)).

(** The run when [generateCommitMessage] throws. *)
Lemma main_generate_throws (text : string) (log : list Event) :
  generateCommitMessage encode w (generator key) diff =
    (Throw (ErrorObj text), log) ->
  main encode w =
    (1, (ExecSync "git diff --cached" :: log ++ [ConsoleError text])%list).
Proof.
  intro G. rewrite (main_present encode w key Hkey Hkey_set), run_eq, Hdiff.
  apply String.eqb_neq in Hstaged. rewrite Hstaged, G. reflexivity.
Qed.

Lemma generate_axios_error (message : string) (response : AxiosResponse.t) :
  completion w key diff = inr (AxiosError message (Some response)) ->
  generateCommitMessage encode w (generator key) diff =
  if is_context_length_error response then
    (Throw (ErrorObj provider_too_large_message), [the_post])
  else
    (Throw (ErrorObj (failure_text (AxiosResponse.data response) message)),
     [the_post; ConsoleLogValue (AxiosResponse.data response)]).
Proof.
  intro Hp. unfold completion in Hp.
  unfold generateCommitMessage, checkContextLength.
  change (OpenAIConfig.maxContextLength (openaiConfig (generator key))) with 16385.
  change (promptTemplate (generator key)) with promptTemplate_text.
  fold (promptTokens encode). fold (diffTokens encode diff).
  apply N.ltb_ge in Hfits. rewrite Hfits.
  unfold post. js_step. rewrite Hp. js_step.
  cbn [option_map]. fold (is_context_length_error response).
  destruct (is_context_length_error response); [ reflexivity | ].
  js_step. unfold interpolate, failure_text.
  destruct (toString _); reflexivity.
Qed.

End Rejections.

(** C5, as stated, fails: the error printed for the provider's
    [context_length_exceeded] is not the message of the local guard; it has
    no token counts, which every message of the guard has. *)
Lemma provider_message_is_not_the_guard_message :
  main byte_tokens
    (sample_world (Some "sk-test") sample_diff
       (rejected 400 (error_payload "context_length_exceeded")) "y") =
    (1, [ExecSync "git diff --cached";
         AxiosPost completions_url
           (request_body (generator "sk-test") (promptTemplate_text ++ sample_diff))
           (request_headers (generator "sk-test"));
         ConsoleError provider_too_large_message]) /\
  String.eqb provider_too_large_message
    (guard_message (promptTokens byte_tokens + diffTokens byte_tokens sample_diff)
       16385 (diffTokens byte_tokens sample_diff)) = false /\
  includes "- Total tokens: " provider_too_large_message = false /\
  includes "- Total tokens: "
    (guard_message (promptTokens byte_tokens + diffTokens byte_tokens sample_diff)
       16385 (diffTokens byte_tokens sample_diff)) = true.
Proof. vm_compute. repeat split. Qed.

(** C5 — Provider context-length error mapping, amended: for a failure with
    status 400 and the error code [context_length_exceeded], the run prints
    an error and exits with status 1; the message is the headline and the
    advice of the local guard's message, one after the other, without the
    token-count lines that the guard puts between them. *)
Theorem provider_context_length_error (encode : string -> list N) (w : World)
  (key diff message : string) (response : AxiosResponse.t) :
  env_OPENAI_API_KEY w = Some key -> key <> "" ->
  execSync w "git diff --cached" = inl diff -> trim diff <> "" ->
  promptTokens encode + diffTokens encode diff <= 16385 ->
  completion w key diff = inr (AxiosError message (Some response)) ->
  AxiosResponse.status response = 400 ->
  optGet (optGet (AxiosResponse.data response) (Name "error")) (Name "code")
    = JStr "context_length_exceeded" ->
  main encode w =
    (1, [ExecSync "git diff --cached";
         AxiosPost completions_url
           (request_body (generator key) (promptTemplate_text ++ diff))
           (request_headers (generator key));
         ConsoleError provider_too_large_message]) /\
  provider_too_large_message = too_large_headline ++ nl ++ too_large_advice /\
  forall total max diffCount,
    guard_message total max diffCount =
    too_large_headline ++ nl ++
    ("- Total tokens: " ++ of_N total ++ nl ++
     "- Maximum allowed: " ++ of_N max ++ nl ++
     "- Diff tokens: " ++ of_N diffCount ++ nl ++ nl) ++
    too_large_advice.
Proof.
  intros E Hk Hd Hne Hge Hp Hs Hc.
  split; [ | split; [ reflexivity | ] ].
  - pose proof (generate_axios_error encode w key diff Hge message response Hp) as G.
    unfold is_context_length_error in G. rewrite Hs, Hc in G.
    exact (main_generate_throws encode w key diff E Hk Hd Hne _ _ G).
  - intros total max diffCount. unfold guard_message.
    rewrite !append_assoc. reflexivity.
Qed.

Lemma provider_context_length_error_witness :
  main byte_tokens
    (sample_world (Some "sk-test") sample_diff
       (rejected 400 (error_payload "context_length_exceeded")) "y") =
    (1, [ExecSync "git diff --cached";
         AxiosPost completions_url
           (request_body (generator "sk-test") (promptTemplate_text ++ sample_diff))
           (request_headers (generator "sk-test"));
         ConsoleError provider_too_large_message]).
Proof.
  apply (provider_context_length_error byte_tokens
           (sample_world (Some "sk-test") sample_diff
              (rejected 400 (error_payload "context_length_exceeded")) "y")
           "sk-test" sample_diff "Request failed with status code 400"
           {| AxiosResponse.status := 400;
              AxiosResponse.data := error_payload "context_length_exceeded" |}).
  - reflexivity.
  - discriminate.
  - reflexivity.
  - vm_compute. discriminate.
  - vm_compute. discriminate.
  - reflexivity.
  - reflexivity.
  - reflexivity.
Defined.

(** C6, as stated, fails: for a failure with status 401 and a text payload
    the error printed holds the payload and no status; nothing of the run's
    output holds the status. *)
Lemma http_status_is_not_surfaced :
  main byte_tokens
    (sample_world (Some "sk-test") sample_diff
       (rejected 401 (JStr "Incorrect API key provided")) "y") =
    (1, [ExecSync "git diff --cached";
         AxiosPost completions_url
           (request_body (generator "sk-test") (promptTemplate_text ++ sample_diff))
           (request_headers (generator "sk-test"));
         ConsoleLogValue (JStr "Incorrect API key provided");
         ConsoleError "❌ Error generating commit message: Incorrect API key provided"]) /\
  includes "401"
    "❌ Error generating commit message: Incorrect API key provided" = false /\
  includes "401" "Incorrect API key provided" = false.
Proof. vm_compute. repeat split. Qed.

(** C6 — Other HTTP errors, amended: for every failure of the request that
    is not the 400 context-length case, whatever the payload, the payload is
    logged and the run prints one error and exits with status 1; the error
    printed depends on the payload and on the HTTP client's message only (the
    program does not add the HTTP status); it is the prefix
    [Error generating commit message: ] followed by the payload as it is when
    the payload is a non-empty text, and by the HTTP client's own message
    when there is no payload ([undefined], [null], the empty text). *)
Theorem other_http_errors (encode : string -> list N) (w : World)
  (key diff message : string) (response : AxiosResponse.t) :
  env_OPENAI_API_KEY w = Some key -> key <> "" ->
  execSync w "git diff --cached" = inl diff -> trim diff <> "" ->
  promptTokens encode + diffTokens encode diff <= 16385 ->
  completion w key diff = inr (AxiosError message (Some response)) ->
  is_context_length_error response = false ->
  main encode w =
    (1, [ExecSync "git diff --cached";
         AxiosPost completions_url
           (request_body (generator key) (promptTemplate_text ++ diff))
           (request_headers (generator key));
         ConsoleLogValue (AxiosResponse.data response);
         ConsoleError (failure_text (AxiosResponse.data response) message)]) /\
  (forall payload,
      AxiosResponse.data response = JStr payload -> payload <> "" ->
      failure_text (AxiosResponse.data response) message =
        "❌ Error generating commit message: " ++ payload) /\
  (AxiosResponse.data response = JUndefined \/
   AxiosResponse.data response = JNull \/
   AxiosResponse.data response = JStr "" ->
   failure_text (AxiosResponse.data response) message =
     "❌ Error generating commit message: " ++ message).
Proof.
  intros E Hk Hd Hne Hge Hp Hc.
  pose proof (generate_axios_error encode w key diff Hge message response Hp) as G.
  rewrite Hc in G.
  split; [ exact (main_generate_throws encode w key diff E Hk Hd Hne _ _ G) | ].
  split.
  - intros payload Hdata Hpay. rewrite Hdata. unfold failure_text.
    cbn [truthy]. apply String.eqb_neq in Hpay. rewrite Hpay. reflexivity.
  - intros [Hdata | [Hdata | Hdata]]; rewrite Hdata; reflexivity.
Qed.

Lemma other_http_errors_witness :
  main byte_tokens
    (sample_world (Some "sk-test") sample_diff
       (rejected 401 (JStr "Incorrect API key provided")) "y") =
    (1, [ExecSync "git diff --cached";
         AxiosPost completions_url
           (request_body (generator "sk-test") (promptTemplate_text ++ sample_diff))
           (request_headers (generator "sk-test"));
         ConsoleLogValue (JStr "Incorrect API key provided");
         ConsoleError (failure_text (JStr "Incorrect API key provided")
                         "Request failed with status code 401")]) /\
  failure_text (JStr "Incorrect API key provided")
    "Request failed with status code 401" =
    "❌ Error generating commit message: " ++ "Incorrect API key provided" /\
  failure_text JUndefined "Request failed with status code 502" =
    "❌ Error generating commit message: " ++
    "Request failed with status code 502".
Proof.
  pose proof (other_http_errors byte_tokens
                (sample_world (Some "sk-test") sample_diff
                   (rejected 401 (JStr "Incorrect API key provided")) "y")
                "sk-test" sample_diff "Request failed with status code 401"
                {| AxiosResponse.status := 401;
                   AxiosResponse.data := JStr "Incorrect API key provided" |}
                eq_refl ltac:(discriminate) eq_refl ltac:(vm_compute; discriminate)
                ltac:(vm_compute; discriminate) eq_refl eq_refl)
    as (M & Hs & _).
  pose proof (other_http_errors byte_tokens
                (sample_world (Some "sk-test") sample_diff
                   (rejected 502 JUndefined) "y")
                "sk-test" sample_diff "Request failed with status code 502"
                {| AxiosResponse.status := 502; AxiosResponse.data := JUndefined |}
                eq_refl ltac:(discriminate) eq_refl ltac:(vm_compute; discriminate)
                ltac:(vm_compute; discriminate) eq_refl eq_refl)
    as (_ & _ & Hu).
  split; [ exact M | ]. split.
  - apply (Hs "Incorrect API key provided"); [ reflexivity | discriminate ].
  - apply Hu. left. reflexivity.
Defined.

(** C10 — No-candidate response: when the request succeeds and the candidate
    list of the body is missing or empty, no suggestion is produced (nothing
    is shown, no prompt, no commit); the failure is caught and printed as an
    unexpected error, and the process exits with status 1. *)
Theorem no_candidate_is_unexpected_error (encode : string -> list N) (w : World)
  (key diff : string) (response : AxiosResponse.t) :
  env_OPENAI_API_KEY w = Some key -> key <> "" ->
  execSync w "git diff --cached" = inl diff -> trim diff <> "" ->
  promptTokens encode + diffTokens encode diff <= 16385 ->
  completion w key diff = inl response ->
  optGet (AxiosResponse.data response) (Name "choices") = JUndefined \/
  optGet (AxiosResponse.data response) (Name "choices") = JArr [] ->
  exists cause,
    main encode w =
      (1, [ExecSync "git diff --cached";
           AxiosPost completions_url
             (request_body (generator key) (promptTemplate_text ++ diff))
             (request_headers (generator key));
           ConsoleError ("❌ Unexpected error: " ++ cause)]) /\
    prompts (snd (main encode w)) = [] /\
    commit_invocations (snd (main encode w)) = [].
Proof.
  intros E Hk Hd Hne Hge Hp Hch.
  assert (Hc : first_candidate (AxiosResponse.data response) = None).
  { unfold first_candidate. unfold optGet in Hch.
    destruct (lookup (AxiosResponse.data response) (Name "choices"))
      as [choices |]; [ | reflexivity ].
    destruct Hch as [-> | ->]; reflexivity. }
  destruct (generate_no_candidate encode w (generator key) diff response Hge Hp Hc)
    as [cause G].
  exists cause.
  pose proof (main_generate_throws encode w key diff E Hk Hd Hne _ _ G) as M.
  cbn [app] in M. rewrite M. repeat split.
Qed.

Lemma no_candidate_is_unexpected_error_witness :
  exists cause,
    main byte_tokens
      (sample_world (Some "sk-test") sample_diff
         (inl {| AxiosResponse.status := 200;
                 AxiosResponse.data := JObj [("choices", JArr [])] |}) "y") =
      (1, [ExecSync "git diff --cached";
           AxiosPost completions_url
             (request_body (generator "sk-test") (promptTemplate_text ++ sample_diff))
             (request_headers (generator "sk-test"));
           ConsoleError ("❌ Unexpected error: " ++ cause)]) /\
    prompts (snd (main byte_tokens
      (sample_world (Some "sk-test") sample_diff
         (inl {| AxiosResponse.status := 200;
                 AxiosResponse.data := JObj [("choices", JArr [])] |}) "y"))) = [] /\
    commit_invocations (snd (main byte_tokens
      (sample_world (Some "sk-test") sample_diff
         (inl {| AxiosResponse.status := 200;
                 AxiosResponse.data := JObj [("choices", JArr [])] |}) "y"))) = [].
Proof.
  apply (no_candidate_is_unexpected_error byte_tokens
           (sample_world (Some "sk-test") sample_diff
              (inl {| AxiosResponse.status := 200;
                      AxiosResponse.data := JObj [("choices", JArr [])] |}) "y")
           "sk-test" sample_diff
           {| AxiosResponse.status := 200;
              AxiosResponse.data := JObj [("choices", JArr [])] |}).
  - reflexivity.
  - discriminate.
  - reflexivity.
  - vm_compute. discriminate.
  - vm_compute. discriminate.
  - reflexivity.
  - right. reflexivity.
Defined.

(** What the engine reports for the two shapes. *)
Example no_candidate_causes :
  main byte_tokens
    (sample_world (Some "sk-test") sample_diff
       (inl {| AxiosResponse.status := 200;
               AxiosResponse.data := JObj [("choices", JArr [])] |}) "y") =
    (1, [ExecSync "git diff --cached";
         AxiosPost completions_url
           (request_body (generator "sk-test") (promptTemplate_text ++ sample_diff))
           (request_headers (generator "sk-test"));
         ConsoleError "❌ Unexpected error: Cannot read properties of undefined (reading 'message')"]) /\
  main byte_tokens
    (sample_world (Some "sk-test") sample_diff
       (inl {| AxiosResponse.status := 200;
               AxiosResponse.data := JObj [] |}) "y") =
    (1, [ExecSync "git diff --cached";
         AxiosPost completions_url
           (request_body (generator "sk-test") (promptTemplate_text ++ sample_diff))
           (request_headers (generator "sk-test"));
         ConsoleError "❌ Unexpected error: Cannot read properties of undefined (reading '0')"]).
Proof. vm_compute. split; reflexivity. Qed.

(** ** The commit *)

(** C8 — No premature mutation: a commit invocation in the trace of a run
    means that the token guard passed, the completion request succeeded with
    a candidate, and the line typed was [y] or [Y]; the invocation stands
    after the request and after the prompt, and it is the only one.  So when
    the suggestion was not obtained, or the line typed is another one, the
    trace has no commit invocation. *)
Theorem no_premature_commit (encode : string -> list N) (w : World) :
  (forall command,
      In command (commit_invocations (snd (main encode w))) ->
      exists key diff response raw rest,
        suggestion_obtained encode w key diff response raw /\
        (answer w = "y" \/ answer w = "Y") /\
        command = commit_command (trim raw) /\
        snd (main encode w) =
          (trace_to_prompt key diff raw ++ ExecSync command :: rest)%list /\
        commit_invocations rest = []) /\
  ((~ exists key diff response raw,
        suggestion_obtained encode w key diff response raw) \/
   (answer w <> "y" /\ answer w <> "Y") ->
   commit_invocations (snd (main encode w)) = []).
Proof.
  destruct (main_shape encode w) as [(key & diff & response & raw & Ho) | [_ Hc]].
  2:{ split; [ intros command Hin; rewrite Hc in Hin; destruct Hin
             | intros _; exact Hc ]. }
  pose proof (main_obtained encode w key diff response raw Ho) as M.
  destruct (String.eqb (toLowerCase (answer w)) "y") eqn:Ha.
  - apply String.eqb_eq, toLowerCase_is_y in Ha. split.
    + intros command Hin.
      exists key, diff, response, raw.
      destruct (execSync w (commit_command (trim raw))) as [out | error];
        rewrite M in Hin |- *; cbn [snd] in Hin |- *;
        rewrite commit_invocations_to_prompt in Hin;
        cbn [commit_invocations] in Hin;
        rewrite commit_command_is_commit in Hin;
        destruct Hin as [<- | []];
        eexists; (split; [ exact Ho | ]); (split; [ exact Ha | ]);
        (split; [ reflexivity | ]); split; reflexivity.
    + intros [Hn | [H1 H2]]; [ | tauto ].
      exfalso. apply Hn. now exists key, diff, response, raw.
  - rewrite M. cbn [snd]. rewrite commit_invocations_to_prompt.
    split; [ intros command [] | intros _; reflexivity ].
Qed.

Lemma no_premature_commit_witness :
  (exists key diff response raw rest,
      suggestion_obtained byte_tokens (scenario "y") key diff response raw /\
      (answer (scenario "y") = "y" \/ answer (scenario "y") = "Y") /\
      commit_command "feat: add debug log" = commit_command (trim raw) /\
      snd (main byte_tokens (scenario "y")) =
        (trace_to_prompt key diff raw ++
         ExecSync (commit_command "feat: add debug log") :: rest)%list /\
      commit_invocations rest = []) /\
  commit_invocations (snd (main byte_tokens (scenario "n"))) = [].
Proof.
  split.
  - apply (proj1 (no_premature_commit byte_tokens (scenario "y"))
             (commit_command "feat: add debug log")).
    vm_compute. left. reflexivity.
  - apply (proj2 (no_premature_commit byte_tokens (scenario "n"))).
    right. split; discriminate.
Defined.

Lemma escaped_spec_without_quote (message : string) :
  includes (String dquote "") message = false ->
  escaped_spec message = message.
Proof.
  rewrite <- replace_g_spec.
  induction message as [| c r IH]; [ reflexivity |].
  cbn [includes startsWith replace_g]. rewrite andb_true_r, Ascii.eqb_sym.
  destruct (Ascii.eqb c dquote); cbn [orb]; [ discriminate |].
  intro H. now rewrite IH.
Qed.

(** C9 — Escape coverage: the command line is [git commit -m], a space and a
    double quote, then the message in which each double quote has become a
    backslash and a double quote and every other character is kept, then a
    double quote; a backslash, a backtick and a dollar sign are among the
    characters kept, so they reach the command line as they are, and a
    message with no double quote is embedded unchanged. *)
Theorem commit_command_escapes_quotes_only (message : string) :
  commit_command message =
    "git commit -m " ++
    String dquote (escaped_spec message ++ String dquote "") /\
  escape_char dquote = String backslash (String dquote "") /\
  escape_char backslash = String backslash "" /\
  escape_char "`"%char = "`" /\
  escape_char "$"%char = "$" /\
  (includes (String dquote "") message = false ->
   commit_command message =
     "git commit -m " ++ String dquote (message ++ String dquote "")).
Proof.
  assert (H : commit_command message =
              "git commit -m " ++
              String dquote (escaped_spec message ++ String dquote ""))
    by (unfold commit_command; now rewrite replace_g_spec).
  split; [ exact H | ]. do 4 (split; [ reflexivity | ]).
  intro Hq. now rewrite H, escaped_spec_without_quote.
Qed.

Lemma commit_command_escapes_quotes_only_witness :
  commit_command (String backslash "`echo $HOME`") =
    "git commit -m " ++
    String dquote (String backslash "`echo $HOME`" ++ String dquote "").
Proof.
  apply (proj2 (proj2 (proj2 (proj2 (proj2
           (commit_command_escapes_quotes_only (String backslash "`echo $HOME`"))))))).
  reflexivity.
Defined.

(** A message with double quotes in it, and one that ends in a backslash. *)
Example commit_command_ex :
  commit_command ("say " ++ String dquote ("hi" ++ String dquote "")) =
    "git commit -m " ++
    String dquote ("say " ++ String backslash (String dquote
      ("hi" ++ String backslash (String dquote (String dquote ""))))) /\
  commit_command ("fix: path C:" ++ String backslash "") =
    "git commit -m " ++
    String dquote ("fix: path C:" ++ String backslash (String dquote "")).
Proof. split; reflexivity. Qed.

(** * Further properties of the run *)

Section Endings.

Variable encode : string -> list N.
Variable w : World.

Lemma main_ending : Ending encode w.
Proof.
  destruct (env_OPENAI_API_KEY w) as [key |] eqn:E;
    [ | apply NoCredential; [ now left | apply main_missing; now left ] ].
  destruct (String.eqb_spec key "") as [-> | Hk];
    [ apply NoCredential; [ now right | apply main_missing; now right ] | ].
  destruct (execSync w "git diff --cached") as [diff | error] eqn:Hd.
  2:{ apply (DiffFailed encode w key error E Hk Hd).
      rewrite (main_present encode w key E Hk), run_eq, Hd. reflexivity. }
  destruct (String.eqb_spec (trim diff) "") as [He | Hne].
  { apply (NothingStaged encode w key diff E Hk Hd He).
    rewrite (main_present encode w key E Hk), run_eq, Hd, He. reflexivity. }
  destruct (N.lt_ge_cases 16385 (promptTokens encode + diffTokens encode diff))
    as [Hlt | Hge].
  { apply (TooLarge encode w key diff E Hk Hd Hne Hlt).
    exact (main_generate_throws encode w key diff E Hk Hd Hne _ []
             (generate_guard_fail encode w (generator key) diff Hlt)). }
  destruct (completion w key diff) as [response | error] eqn:Hp.
  - destruct (first_candidate (AxiosResponse.data response)) as [raw |] eqn:Hc.
    + apply (Suggested encode w key diff response raw). repeat split; assumption.
    + destruct (generate_no_candidate encode w (generator key) diff response
                  Hge Hp Hc) as [cause G].
      apply (RequestFailed encode w key diff ("❌ Unexpected error: " ++ cause)
               [] E Hk Hd Hne Hge).
      * intros r Hr. rewrite Hp in Hr. injection Hr as <-. exact Hc.
      * now left.
      * exact (main_generate_throws encode w key diff E Hk Hd Hne _ _ G).
  - destruct (generate_rejected encode w (generator key) diff error Hge Hp)
      as (text & log & G & Hlog).
    apply (RequestFailed encode w key diff text log E Hk Hd Hne Hge).
    + intros r Hr. rewrite Hp in Hr. discriminate Hr.
    + exact Hlog.
    + exact (main_generate_throws encode w key diff E Hk Hd Hne _ _ G).
Qed.

End Endings.

(** ** Failures of the collaborators *)

(** X1 — Diff retrieval failure: when [git diff --cached] throws, the run
    prints [Failed to get git diff: ] followed by the error's message (or
    [Unknown error] when what was thrown is no [Error]) and exits with
    status 1; nothing else happens: no request, no prompt, no commit. *)
Theorem diff_failure_is_reported (encode : string -> list N) (w : World)
  (key : string) (error : Thrown) :
  env_OPENAI_API_KEY w = Some key -> key <> "" ->
  execSync w "git diff --cached" = inr error ->
  main encode w =
    (1, [ExecSync "git diff --cached";
         ConsoleError ("❌ Failed to get git diff: " ++
                       messageOr error "Unknown error")]) /\
  network_calls (snd (main encode w)) = [] /\
  prompts (snd (main encode w)) = [] /\
  commit_invocations (snd (main encode w)) = [].
Proof.
  intros E Hk Hd.
  assert (M : main encode w =
              (1, [ExecSync "git diff --cached";
                   ConsoleError ("❌ Failed to get git diff: " ++
                                 messageOr error "Unknown error")]))
    by (rewrite (main_present encode w key E Hk), run_eq, Hd; reflexivity).
  rewrite M. repeat split.
Qed.

Lemma diff_failure_is_reported_witness :
  main byte_tokens scenario_broken =
    (1, [ExecSync "git diff --cached";
         ConsoleError ("❌ Failed to get git diff: " ++
                       "Command failed: git diff --cached")]) /\
  network_calls (snd (main byte_tokens scenario_broken)) = [] /\
  prompts (snd (main byte_tokens scenario_broken)) = [] /\
  commit_invocations (snd (main byte_tokens scenario_broken)) = [].
Proof.
  apply (diff_failure_is_reported byte_tokens scenario_broken "sk-test"
           (ErrorObj "Command failed: git diff --cached")).
  - reflexivity.
  - discriminate.
  - reflexivity.
Defined.

(** After the prompt, for a line that is read: committed, commit failed, or
    declined. *)
Lemma endings_after_the_prompt (encode : string -> list N) (w : World)
  (key diff : string) (response : AxiosResponse.t) (raw : string) :
  suggestion_obtained encode w key diff response raw ->
  (answer w = "y" \/ answer w = "Y" ->
   forall out, execSync w (commit_command (trim raw)) = inl out ->
   main encode w =
     (0, (trace_to_prompt key diff raw ++
          [ExecSync (commit_command (trim raw))])%list)) /\
  (answer w = "y" \/ answer w = "Y" ->
   forall error, execSync w (commit_command (trim raw)) = inr error ->
   main encode w =
     (1, (trace_to_prompt key diff raw ++
          [ExecSync (commit_command (trim raw));
           ConsoleError ("❌ Failed to commit: " ++
                         messageOr error "Unknown error")])%list)) /\
  (answer w <> "y" -> answer w <> "Y" ->
   main encode w =
     (0, (trace_to_prompt key diff raw ++
          [ConsoleLog "🛑 Commit cancelled."])%list)).
Proof.
  intro Ho. rewrite (main_obtained encode w key diff response raw Ho).
  split; [ | split ].
  - intros Ha out Hc. apply toLowerCase_is_y in Ha. now rewrite Ha, Hc.
  - intros Ha error Hc. apply toLowerCase_is_y in Ha. now rewrite Ha, Hc.
  - intros H1 H2.
    destruct (String.eqb_spec (toLowerCase (answer w)) "y") as [Ha | Ha];
      [ apply toLowerCase_is_y in Ha; tauto | reflexivity ].
Qed.

Section MoreRejections.

Variable encode : string -> list N.
Variable w : World.
Variables key diff : string.

Hypothesis Hfits : promptTokens encode + diffTokens encode diff <= 16385.

Lemma generate_no_response (message : string) :
  completion w key diff = inr (AxiosError message None) ->
  generateCommitMessage encode w (generator key) diff =
  (Throw (ErrorObj ("❌ Error generating commit message: " ++ message)),
   [request_event key diff; ConsoleLogValue JUndefined]).
Proof.
  intro Hp. unfold completion in Hp.
  unfold generateCommitMessage, checkContextLength.
  change (OpenAIConfig.maxContextLength (openaiConfig (generator key))) with 16385.
  change (promptTemplate (generator key)) with promptTemplate_text.
  fold (promptTokens encode). fold (diffTokens encode diff).
  apply N.ltb_ge in Hfits. rewrite Hfits.
  unfold post. js_step. rewrite Hp. reflexivity.
Qed.

Lemma generate_not_axios (error : Thrown) :
  completion w key diff = inr error ->
  (forall message response, error <> AxiosError message response) ->
  generateCommitMessage encode w (generator key) diff =
  (Throw (ErrorObj ("❌ Unexpected error: " ++ messageOr error "Unknown error")),
   [request_event key diff]).
Proof.
  intros Hp Hna. unfold completion in Hp.
  unfold generateCommitMessage, checkContextLength.
  change (OpenAIConfig.maxContextLength (openaiConfig (generator key))) with 16385.
  change (promptTemplate (generator key)) with promptTemplate_text.
  fold (promptTokens encode). fold (diffTokens encode diff).
  apply N.ltb_ge in Hfits. rewrite Hfits.
  unfold post. js_step. rewrite Hp.
  destruct error as [m | m r |]; [ reflexivity | | reflexivity ].
  now destruct (Hna m r).
Qed.

End MoreRejections.

(** X3 — Failure that is no HTTP-client error: when the request is rejected
    with a value that is not an [AxiosError], the run prints
    [Unexpected error: ] followed by the error's message (or [Unknown error]
    when the value is no [Error]) and exits with status 1; the payload is not
    logged, and there is no prompt and no commit. *)
Theorem non_client_failure_is_unexpected_error (encode : string -> list N)
  (w : World) (key diff : string) (error : Thrown) :
  env_OPENAI_API_KEY w = Some key -> key <> "" ->
  execSync w "git diff --cached" = inl diff -> trim diff <> "" ->
  promptTokens encode + diffTokens encode diff <= 16385 ->
  completion w key diff = inr error ->
  (forall message response, error <> AxiosError message response) ->
  main encode w =
    (1, [ExecSync "git diff --cached"; request_event key diff;
         ConsoleError ("❌ Unexpected error: " ++
                       messageOr error "Unknown error")]).
Proof.
  intros E Hk Hd Hne Hge Hp Hna.
  exact (main_generate_throws encode w key diff E Hk Hd Hne _ _
           (generate_not_axios encode w key diff Hge error Hp Hna)).
Qed.

Lemma non_client_failure_is_unexpected_error_witness :
  main byte_tokens
    (sample_world (Some "sk-test") sample_diff (inr NotAnError) "y") =
    (1, [ExecSync "git diff --cached"; request_event "sk-test" sample_diff;
         ConsoleError ("❌ Unexpected error: " ++ "Unknown error")]) /\
  main byte_tokens
    (sample_world (Some "sk-test") sample_diff
       (inr (ErrorObj "Invalid URL")) "y") =
    (1, [ExecSync "git diff --cached"; request_event "sk-test" sample_diff;
         ConsoleError ("❌ Unexpected error: " ++ "Invalid URL")]).
Proof.
  split.
  - apply (non_client_failure_is_unexpected_error byte_tokens
             (sample_world (Some "sk-test") sample_diff (inr NotAnError) "y")
             "sk-test" sample_diff NotAnError);
      try reflexivity; discriminate.
  - apply (non_client_failure_is_unexpected_error byte_tokens
             (sample_world (Some "sk-test") sample_diff
                (inr (ErrorObj "Invalid URL")) "y")
             "sk-test" sample_diff (ErrorObj "Invalid URL"));
      try reflexivity; discriminate.
Defined.

(** X4 — Request without a response: when the HTTP client fails before any
    response came (an [AxiosError] with no [response]), the failure takes the
    client-error path, not the unexpected-error one: [undefined] is logged,
    the run prints [Error generating commit message: ] followed by the
    client's message, and exits with status 1. *)
Theorem request_without_response (encode : string -> list N)
  (w : World) (key diff message : string) :
  env_OPENAI_API_KEY w = Some key -> key <> "" ->
  execSync w "git diff --cached" = inl diff -> trim diff <> "" ->
  promptTokens encode + diffTokens encode diff <= 16385 ->
  completion w key diff = inr (AxiosError message None) ->
  main encode w =
    (1, [ExecSync "git diff --cached"; request_event key diff;
         ConsoleLogValue JUndefined;
         ConsoleError ("❌ Error generating commit message: " ++ message)]).
Proof.
  intros E Hk Hd Hne Hge Hp.
  exact (main_generate_throws encode w key diff E Hk Hd Hne _ _
           (generate_no_response encode w key diff Hge message Hp)).
Qed.

Lemma request_without_response_witness :
  main byte_tokens
    (sample_world (Some "sk-test") sample_diff
       (inr (AxiosError "getaddrinfo ENOTFOUND api.openai.com" None)) "y") =
    (1, [ExecSync "git diff --cached"; request_event "sk-test" sample_diff;
         ConsoleLogValue JUndefined;
         ConsoleError ("❌ Error generating commit message: " ++
                       "getaddrinfo ENOTFOUND api.openai.com")]).
Proof.
  apply (request_without_response byte_tokens
           (sample_world (Some "sk-test") sample_diff
              (inr (AxiosError "getaddrinfo ENOTFOUND api.openai.com" None)) "y")
           "sk-test" sample_diff);
    try reflexivity; discriminate.
Defined.

(** X5 — Empty credential: an [OPENAI_API_KEY] that is set to the empty
    string is treated as a missing one; the process ends with status 1 on the
    uncaught error of the constructor, before [git] is run. *)
Theorem empty_credential_is_missing (encode : string -> list N) (w : World) :
  env_OPENAI_API_KEY w = Some "" ->
  main encode w = (1, [Uncaught (ErrorObj missing_key_text)]).
Proof. intro E. exact (main_missing encode w (or_intror E)). Qed.

Lemma empty_credential_is_missing_witness :
  main byte_tokens
    (sample_world (Some "") sample_diff
       (inl (one_candidate "feat: add debug log")) "y") =
  (1, [Uncaught (ErrorObj missing_key_text)]).
Proof.
  apply (empty_credential_is_missing byte_tokens
           (sample_world (Some "") sample_diff
              (inl (one_candidate "feat: add debug log")) "y")).
  reflexivity.
Defined.

(** X6 — A first candidate without text: when the request succeeds but some
    step of [data.choices[0].message.content] is absent, or the content is
    not a string ([null], a number, ...), the run shows no suggestion and no
    prompt; it prints [Unexpected error: ] with the cause and exits with
    status 1. *)
Theorem candidate_without_text (encode : string -> list N)
  (w : World) (key diff : string) (response : AxiosResponse.t) :
  env_OPENAI_API_KEY w = Some key -> key <> "" ->
  execSync w "git diff --cached" = inl diff -> trim diff <> "" ->
  promptTokens encode + diffTokens encode diff <= 16385 ->
  completion w key diff = inl response ->
  first_candidate (AxiosResponse.data response) = None ->
  exists cause,
    main encode w =
      (1, [ExecSync "git diff --cached"; request_event key diff;
           ConsoleError ("❌ Unexpected error: " ++ cause)]).
Proof.
  intros E Hk Hd Hne Hge Hp Hc.
  destruct (generate_no_candidate encode w (generator key) diff response Hge Hp Hc)
    as [cause G].
  exists cause.
  exact (main_generate_throws encode w key diff E Hk Hd Hne _ _ G).
Qed.

Lemma candidate_without_text_witness :
  exists cause,
    main byte_tokens
      (sample_world (Some "sk-test") sample_diff
         (inl {| AxiosResponse.status := 200;
                 AxiosResponse.data :=
                   JObj [("choices",
                          JArr [JObj [("message",
                                       JObj [("content", JNull)])]])] |}) "y") =
      (1, [ExecSync "git diff --cached"; request_event "sk-test" sample_diff;
           ConsoleError ("❌ Unexpected error: " ++ cause)]).
Proof.
  apply (candidate_without_text byte_tokens
           (sample_world (Some "sk-test") sample_diff
              (inl {| AxiosResponse.status := 200;
                      AxiosResponse.data :=
                        JObj [("choices",
                               JArr [JObj [("message",
                                            JObj [("content", JNull)])]])] |}) "y")
           "sk-test" sample_diff
           {| AxiosResponse.status := 200;
              AxiosResponse.data :=
                JObj [("choices",
                       JArr [JObj [("message", JObj [("content", JNull)])]])] |});
    try reflexivity; discriminate.
Defined.

(** X7 — Payload that is an object: for a failure of the request that is not
    the 400 context-length case and whose payload is a parsed JSON object,
    the object is logged and the run exits with status 1.  When the object
    has no property named [toString] of its own (the provider's payloads have
    none), the error printed is
    [Error generating commit message: [object Object]]: the interpolation
    does not render the object's content.  When it has one, the
    interpolation itself throws, and what is printed is that [TypeError]'s
    message, without the prefix. *)
Theorem object_payload_is_not_rendered (encode : string -> list N) (w : World)
  (key diff message : string) (response : AxiosResponse.t)
  (fields : list (string * JsValue)) :
  env_OPENAI_API_KEY w = Some key -> key <> "" ->
  execSync w "git diff --cached" = inl diff -> trim diff <> "" ->
  promptTokens encode + diffTokens encode diff <= 16385 ->
  completion w key diff = inr (AxiosError message (Some response)) ->
  is_context_length_error response = false ->
  AxiosResponse.data response = JObj fields ->
  (has_key "toString" fields = false ->
   main encode w =
     (1, [ExecSync "git diff --cached"; request_event key diff;
          ConsoleLogValue (JObj fields);
          ConsoleError "❌ Error generating commit message: [object Object]"])) /\
  (has_key "toString" fields = true ->
   main encode w =
     (1, [ExecSync "git diff --cached"; request_event key diff;
          ConsoleLogValue (JObj fields);
          ConsoleError "Cannot convert object to primitive value"])).
Proof.
  intros E Hk Hd Hne Hge Hp Hc Hdata.
  pose proof (generate_axios_error encode w key diff Hge message response Hp) as G.
  rewrite Hc, Hdata in G.
  pose proof (main_generate_throws encode w key diff E Hk Hd Hne _ _ G) as M.
  unfold failure_text in M. cbn [truthy toString app] in M.
  split; intro Hkey; rewrite Hkey in M; exact M.
Qed.

Lemma object_payload_is_not_rendered_witness :
  main byte_tokens
    (sample_world (Some "sk-test") sample_diff
       (rejected 401 (error_payload "invalid_api_key")) "y") =
    (1, [ExecSync "git diff --cached"; request_event "sk-test" sample_diff;
         ConsoleLogValue (error_payload "invalid_api_key");
         ConsoleError "❌ Error generating commit message: [object Object]"]) /\
  main byte_tokens
    (sample_world (Some "sk-test") sample_diff
       (rejected 500 (JObj [("toString", JStr "x")])) "y") =
    (1, [ExecSync "git diff --cached"; request_event "sk-test" sample_diff;
         ConsoleLogValue (JObj [("toString", JStr "x")]);
         ConsoleError "Cannot convert object to primitive value"]).
Proof.
  split.
  - apply (proj1 (object_payload_is_not_rendered byte_tokens
             (sample_world (Some "sk-test") sample_diff
                (rejected 401 (error_payload "invalid_api_key")) "y")
             "sk-test" sample_diff "Request failed with status code 401"
             {| AxiosResponse.status := 401;
                AxiosResponse.data := error_payload "invalid_api_key" |}
             [("error", JObj [("message", JStr "rejected");
                              ("code", JStr "invalid_api_key")])]
             eq_refl ltac:(discriminate) eq_refl ltac:(vm_compute; discriminate)
             ltac:(vm_compute; discriminate) eq_refl eq_refl eq_refl)).
    reflexivity.
  - apply (proj2 (object_payload_is_not_rendered byte_tokens
             (sample_world (Some "sk-test") sample_diff
                (rejected 500 (JObj [("toString", JStr "x")])) "y")
             "sk-test" sample_diff "Request failed with status code 500"
             {| AxiosResponse.status := 500;
                AxiosResponse.data := JObj [("toString", JStr "x")] |}
             [("toString", JStr "x")]
             eq_refl ltac:(discriminate) eq_refl ltac:(vm_compute; discriminate)
             ltac:(vm_compute; discriminate) eq_refl eq_refl eq_refl)).
    reflexivity.
Defined.

(** ** Every run *)

(** All the endings of a run, each with the equation of [main] as [M]. *)
Ltac run_endings encode w :=
  let Ho := fresh "Ho" in
  destruct (main_ending encode w)
    as [ Hm M
       | key error E Hk Hd M
       | key diff E Hk Hd He M
       | key diff E Hk Hd Hne Hlt M
       | key diff text log E Hk Hd Hne Hge Hnc Hlog M
       | key diff response raw Ho ];
  [ | | | |
    destruct Hlog as [-> | [v ->]]; cbn [app] in M
  | pose proof (main_obtained encode w key diff response raw Ho) as M;
    destruct (String.eqb (toLowerCase (answer w)) "y") eqn:Ha;
    [ destruct (execSync w (commit_command (trim raw))) as [out | cerr] eqn:Hcm
    | ] ].

(** X8 — Exit status and the top-level handler: every run ends with status
    0 or 1, and the handler attached to the promise of [run] (the one that
    prints [Fatal error:]) never runs, because [run] catches whatever is
    thrown inside it. *)
Theorem exit_status_is_0_or_1 (encode : string -> list N) (w : World) :
  (fst (main encode w) = 0 \/ fst (main encode w) = 1) /\
  filter is_fatal (snd (main encode w)) = [].
Proof.
  run_endings encode w; rewrite M; (split; [ auto | reflexivity ]).
Qed.

(** X9 — No retries: in every run there is at most one completion request,
    at most one confirmation prompt and at most one commit invocation, and a
    run that prompts has made its request. *)
Theorem at_most_one_of_each (encode : string -> list N) (w : World) :
  (length (network_calls (snd (main encode w))) <= 1)%nat /\
  (length (prompts (snd (main encode w))) <= 1)%nat /\
  (length (commit_invocations (snd (main encode w))) <= 1)%nat /\
  (length (prompts (snd (main encode w)))
   <= length (network_calls (snd (main encode w))))%nat /\
  (length (commit_invocations (snd (main encode w)))
   <= length (prompts (snd (main encode w))))%nat.
Proof.
  run_endings encode w; rewrite M; cbn [snd];
    try rewrite commit_invocations_to_prompt;
    cbn [commit_invocations]; try rewrite commit_command_is_commit;
    cbn -[Nat.le]; repeat split; lia.
Qed.

(** X10 — What is sent: the only network call a run can make is one POST to
    the chat-completions URL, with the model [gpt-3.5-turbo], the temperature
    0.3, one message of role [user] whose content is the prompt template
    followed by the whole staged diff, and the credential as bearer token. *)
Theorem request_content (encode : string -> list N) (w : World) (e : Event) :
  In e (network_calls (snd (main encode w))) ->
  exists key diff,
    env_OPENAI_API_KEY w = Some key /\
    execSync w "git diff --cached" = inl diff /\
    e = AxiosPost "https://api.openai.com/v1/chat/completions"
          {| ChatRequest.model := "gpt-3.5-turbo";
             ChatRequest.messages := [("user", promptTemplate_text ++ diff)];
             ChatRequest.temperature := 3 # 10 |}
          [("Content-Type", "application/json");
           ("Authorization", "Bearer " ++ key)].
Proof.
  intro H.
  run_endings encode w; rewrite M in H; cbn [snd] in H;
    try (now destruct H);
    try (destruct Ho as (E & Hk & Hd & _));
    (destruct H as [<- | []]; exists key, diff; repeat split; assumption).
Qed.

Lemma request_content_witness :
  exists key diff,
    env_OPENAI_API_KEY (scenario "n") = Some key /\
    execSync (scenario "n") "git diff --cached" = inl diff /\
    request_event "sk-test" sample_diff =
      AxiosPost "https://api.openai.com/v1/chat/completions"
        {| ChatRequest.model := "gpt-3.5-turbo";
           ChatRequest.messages := [("user", promptTemplate_text ++ diff)];
           ChatRequest.temperature := 3 # 10 |}
        [("Content-Type", "application/json");
         ("Authorization", "Bearer " ++ key)].
Proof.
  apply (request_content byte_tokens (scenario "n")
           (request_event "sk-test" sample_diff)).
  vm_compute. left. reflexivity.
Defined.

(** When the request is made, for a tokenizer that returns. *)
Lemma request_is_made_iff (encode : string -> list N) (w : World) :
  network_calls (snd (main encode w)) <> [] <->
  exists key diff,
    env_OPENAI_API_KEY w = Some key /\ key <> "" /\
    execSync w "git diff --cached" = inl diff /\ trim diff <> "" /\
    promptTokens encode + diffTokens encode diff <= 16385.
Proof.
  split.
  - intro H.
    run_endings encode w; rewrite M in H; cbn [snd] in H;
      try (now destruct H);
      try (destruct Ho as (E & Hk & Hd & Hne & Hge & _));
      (exists key, diff; repeat split; assumption).
  - intros (key0 & diff0 & E0 & Hk0 & Hd0 & Hne0 & Hge0).
    run_endings encode w; try (rewrite M; discriminate).
    + destruct Hm as [Hm | Hm]; rewrite Hm in E0;
        [ discriminate | injection E0 as <-; now destruct Hk0 ].
    + rewrite Hd in Hd0. discriminate.
    + rewrite Hd in Hd0. injection Hd0 as <-. contradiction.
    + rewrite Hd in Hd0. injection Hd0 as <-. lia.
Qed.

(** Exit status 0, for a tokenizer that returns and a line that is read. *)
Lemma exit_status_0_iff (encode : string -> list N) (w : World) :
  fst (main encode w) = 0 <->
  exists key diff,
    env_OPENAI_API_KEY w = Some key /\ key <> "" /\
    execSync w "git diff --cached" = inl diff /\
    (trim diff = "" \/
     exists response raw,
       suggestion_obtained encode w key diff response raw /\
       ((answer w <> "y" /\ answer w <> "Y") \/
        exists out, execSync w (commit_command (trim raw)) = inl out)).
Proof.
  split.
  - intro H.
    run_endings encode w; rewrite M in H; try discriminate H.
    + exists key, diff. repeat split; try assumption. now left.
    + pose proof Ho as (E & Hk & Hd & _).
      exists key, diff. repeat split; try assumption.
      right. exists response, raw. split; [ assumption | ].
      right. now exists out.
    + pose proof Ho as (E & Hk & Hd & _).
      exists key, diff. repeat split; try assumption.
      right. exists response, raw. split; [ assumption | ].
      left. apply String.eqb_neq in Ha.
      split; intro Hy; apply Ha, toLowerCase_is_y; auto.
  - intros (key & diff & E & Hk & Hd & [He | (response & raw & Ho & Hend)]).
    + rewrite (main_present encode w key E Hk), run_eq, Hd, He. reflexivity.
    + rewrite (main_obtained encode w key diff response raw Ho).
      destruct Hend as [[H1 H2] | [out Hc]].
      * destruct (String.eqb_spec (toLowerCase (answer w)) "y") as [Ha | Ha];
          [ apply toLowerCase_is_y in Ha; tauto | reflexivity ].
      * rewrite Hc. destruct (String.eqb (toLowerCase (answer w)) "y"); reflexivity.
Qed.

(** ** The escaped message *)

Lemma replace_head_not_quote (message : string) :
  match replace_g dquote (String backslash (String dquote "")) message with
  | String c _ => Ascii.eqb c dquote = false
  | EmptyString => True
  end.
Proof.
  destruct message as [| c r]; [ exact I |].
  cbn [replace_g]. destruct (Ascii.eqb c dquote) eqn:E; [ reflexivity | exact E ].
Qed.

Lemma unescape_replace (message : string) :
  unescape (replace_g dquote (String backslash (String dquote "")) message)
  = message.
Proof.
  induction message as [| c r IH]; [ reflexivity |].
  cbn [replace_g]. destruct (Ascii.eqb c dquote) eqn:E.
  - apply Ascii.eqb_eq in E. subst c. cbn [append unescape].
    change (Ascii.eqb backslash backslash) with true.
    change (Ascii.eqb dquote dquote) with true. cbv iota.
    now rewrite IH.
  - cbn [unescape].
    pose proof (replace_head_not_quote r) as Hh.
    destruct (Ascii.eqb c backslash).
    + destruct (replace_g dquote (String backslash (String dquote "")) r)
        as [| d r'] eqn:R.
      * destruct r as [| x r0]; [ reflexivity |].
        cbn [replace_g] in R. destruct (Ascii.eqb x dquote); discriminate R.
      * rewrite Hh. now rewrite IH.
    + now rewrite IH.
Qed.

Lemma append_last_inj (a b : string) (c : ascii) :
  a ++ String c "" = b ++ String c "" -> a = b.
Proof.
  revert b. induction a as [| x a IH]; intros [| y b] H; cbn [append] in H.
  - reflexivity.
  - injection H as _ H. destruct b; discriminate H.
  - injection H as _ H. destruct a; discriminate H.
  - injection H as -> H. f_equal. now apply IH.
Qed.

(** X13 — The escaping loses nothing: reading a backslash and a double quote
    back as a double quote gives the approved message again, so two different
    messages never give the same command line. *)
Theorem commit_command_is_injective (m1 m2 : string) :
  unescape (escaped_spec m1) = m1 /\
  (commit_command m1 = commit_command m2 -> m1 = m2).
Proof.
  split; [ rewrite <- replace_g_spec; apply unescape_replace | ].
  intro H. unfold commit_command in H. cbn [append] in H.
  injection H as H. apply append_last_inj in H.
  apply (f_equal unescape) in H. now rewrite !unescape_replace in H.
Qed.

Lemma commit_command_is_injective_witness :
  unescape (escaped_spec ("say " ++ String dquote ("hi" ++ String dquote "")))
    = "say " ++ String dquote ("hi" ++ String dquote "") /\
  "fix: a" = "fix: a".
Proof.
  split.
  - apply (proj1 (commit_command_is_injective
                    ("say " ++ String dquote ("hi" ++ String dquote "")) "")).
  - apply (proj2 (commit_command_is_injective "fix: a" "fix: a")).
    reflexivity.
Defined.

(** X14 — A blank suggestion: the program does not check the suggestion; when
    the first candidate's text is blank, the empty message is shown, the
    prompt is asked, and on [y] or [Y] the commit is invoked with an empty
    message. *)
Theorem blank_suggestion_is_committed (encode : string -> list N) (w : World)
  (key diff : string) (response : AxiosResponse.t) (raw : string) :
  suggestion_obtained encode w key diff response raw ->
  trim raw = "" ->
  answer w = "y" \/ answer w = "Y" ->
  In (ConsoleLog "") (snd (main encode w)) /\
  In (Question confirm_query) (snd (main encode w)) /\
  commit_invocations (snd (main encode w)) =
    ["git commit -m " ++ String dquote (String dquote "")].
Proof.
  intros Ho Hb Ha. apply toLowerCase_is_y in Ha.
  rewrite (main_obtained encode w key diff response raw Ho), Ha.
  unfold trace_to_prompt. rewrite Hb.
  destruct (execSync w (commit_command "")); cbn [snd app];
    (split; [ do 3 right; left; reflexivity | ]);
    (split; [ do 4 right; left; reflexivity | reflexivity ]).
Qed.

Lemma blank_suggestion_is_committed_witness :
  In (ConsoleLog "")
    (snd (main byte_tokens
            (sample_world (Some "sk-test") sample_diff
               (inl (one_candidate ("  " ++ nl))) "y"))) /\
  In (Question confirm_query)
    (snd (main byte_tokens
            (sample_world (Some "sk-test") sample_diff
               (inl (one_candidate ("  " ++ nl))) "y"))) /\
  commit_invocations
    (snd (main byte_tokens
            (sample_world (Some "sk-test") sample_diff
               (inl (one_candidate ("  " ++ nl))) "y"))) =
    ["git commit -m " ++ String dquote (String dquote "")].
Proof.
  apply (blank_suggestion_is_committed byte_tokens
           (sample_world (Some "sk-test") sample_diff
              (inl (one_candidate ("  " ++ nl))) "y")
           "sk-test" sample_diff (one_candidate ("  " ++ nl)) ("  " ++ nl)).
  - repeat split; try reflexivity; discriminate.
  - reflexivity.
  - left. reflexivity.
Defined.

(** ** Trimming *)

Lemma strip_all_ws1 (fwd : bool) (l : list ascii) :
  forallb ws1 l = true -> strip fwd l = [].
Proof.
  induction l as [| a r IH]; [ reflexivity |].
  cbn [forallb strip]. intro H. apply andb_true_iff in H as [Ha Hr].
  rewrite Ha. now apply IH.
Qed.

Lemma rev_eq_nil {A : Type} (l : list A) : rev l = [] -> l = [].
Proof.
  intro H. apply (f_equal (@rev A)) in H. now rewrite rev_involutive in H.
Qed.

Lemma trim_all_ws1 (s : string) :
  forallb ws1 (list_ascii_of_string s) = true -> trim s = "".
Proof.
  intro H. unfold trim. now rewrite (strip_all_ws1 true _ H).
Qed.

Section Visible.

Variable b : ascii.
Hypothesis Hb : visible_ascii b = true.

Lemma visible_lt : N_of_ascii b < 128.
Proof.
  unfold visible_ascii in Hb. apply andb_true_iff in Hb as [H _].
  now apply N.ltb_lt in H.
Qed.

Lemma visible_not_ws1 : ws1 b = false.
Proof.
  unfold visible_ascii in Hb. apply andb_true_iff in Hb as [_ H].
  now apply negb_true_iff in H.
Qed.

Lemma visible_byte_is (n : N) : 128 <= n -> byte_is b n = false.
Proof.
  intro H. unfold byte_is. apply N.eqb_neq. pose proof visible_lt. lia.
Qed.

Lemma visible_not_high : (128 <=? N_of_ascii b) = false.
Proof. apply N.leb_gt, visible_lt. Qed.

Lemma ws2_visible (x : ascii) : ws2 b x = false /\ ws2 x b = false.
Proof.
  unfold ws2. rewrite !visible_byte_is by lia.
  now rewrite andb_false_r.
Qed.

Lemma ws3_visible (x y : ascii) :
  ws3 b x y = false /\ ws3 x b y = false /\ ws3 x y b = false.
Proof.
  unfold ws3. rewrite !visible_byte_is by lia. rewrite visible_not_high.
  cbn [andb orb]. rewrite !andb_false_r. cbn [andb orb].
  repeat split; reflexivity.
Qed.

(** The front of a list is stripped no further than a visible byte. *)
Lemma strip_keeps_visible (fwd : bool) (n : nat) :
  forall l1 l2, (length l1 <= n)%nat ->
    exists l1', strip fwd (l1 ++ b :: l2) = (l1' ++ b :: l2)%list.
Proof.
  induction n as [| n IH]; intros l1 l2 Hn.
  - destruct l1 as [| x l1]; [ | cbn [length] in Hn; lia ].
    exists []. cbn [app strip]. rewrite visible_not_ws1.
    destruct l2 as [| y [| z r]]; try reflexivity.
    + destruct fwd; [ rewrite (proj1 (ws2_visible y))
                    | rewrite (proj2 (ws2_visible y)) ]; reflexivity.
    + destruct fwd;
        [ rewrite (proj1 (ws2_visible y)), (proj1 (ws3_visible y z))
        | rewrite (proj2 (ws2_visible y)), (proj2 (proj2 (ws3_visible z y))) ];
        reflexivity.
  - destruct l1 as [| x l1]; [ apply (IH [] l2); cbn [length]; lia |].
    cbn [length] in Hn. cbn [app strip].
    destruct (ws1 x); [ apply IH; lia |].
    destruct l1 as [| y l1].
    + cbn [app].
      assert (H2 : (if fwd then ws2 x b else ws2 b x) = false)
        by (destruct fwd; [ apply (ws2_visible x) | apply (ws2_visible x) ]).
      rewrite H2.
      destruct l2 as [| z r]; [ now exists [x] |].
      assert (H3 : (if fwd then ws3 x b z else ws3 z b x) = false)
        by (destruct fwd; [ apply (ws3_visible x z) | apply (ws3_visible z x) ]).
      rewrite H3. now exists [x].
    + cbn [length] in Hn. cbn [app].
      destruct (if fwd then ws2 x y else ws2 y x); [ apply IH; lia |].
      destruct l1 as [| z l1].
      * cbn [app].
        assert (H3 : (if fwd then ws3 x y b else ws3 b y x) = false)
          by (destruct fwd; [ apply (ws3_visible x y) | apply (ws3_visible y x) ]).
        rewrite H3. now exists [x; y].
      * cbn [length] in Hn. cbn [app].
        destruct (if fwd then ws3 x y z else ws3 z y x); [ apply IH; lia |].
        now exists (x :: y :: z :: l1).
Qed.

Lemma list_ascii_of_string_app (s1 s2 : string) :
  list_ascii_of_string (s1 ++ s2) =
  (list_ascii_of_string s1 ++ list_ascii_of_string s2)%list.
Proof.
  induction s1 as [| c s1 IH]; [ reflexivity |].
  cbn [append list_ascii_of_string app]. now rewrite IH.
Qed.

Lemma rev_middle {A : Type} (l1 l2 : list A) (x : A) :
  rev (l1 ++ x :: l2) = (rev l2 ++ x :: rev l1)%list.
Proof.
  rewrite rev_app_distr. cbn [rev]. now rewrite <- app_assoc.
Qed.

Lemma trim_keeps_visible (pre post : string) :
  trim (pre ++ String b post) <> "".
Proof.
  unfold trim. rewrite list_ascii_of_string_app. cbn [list_ascii_of_string].
  destruct (strip_keeps_visible true _ (list_ascii_of_string pre)
              (list_ascii_of_string post) (le_n _)) as [l1 ->].
  rewrite rev_middle.
  destruct (strip_keeps_visible false _ (rev (list_ascii_of_string post))
              (rev l1) (le_n _)) as [l2 ->].
  rewrite rev_middle, rev_involutive.
  destruct l1; discriminate.
Qed.

End Visible.

(** X15 — The emptiness flag on ASCII text: a staged diff made only of
    spaces, tabs and line breaks has the flag set (and the run stops at the
    notice), and a staged diff that holds any other ASCII character has the
    flag cleared. *)
Theorem isEmpty_on_ascii (w : World) (diff : string) :
  execSync w "git diff --cached" = inl diff ->
  (forallb ws1 (list_ascii_of_string diff) = true ->
   getStagedDiff w =
     (Return {| GitDiff.content := diff; GitDiff.isEmpty := true |},
      [ExecSync "git diff --cached"])) /\
  (forall pre b post,
      diff = pre ++ String b post -> visible_ascii b = true ->
      getStagedDiff w =
        (Return {| GitDiff.content := diff; GitDiff.isEmpty := false |},
         [ExecSync "git diff --cached"])).
Proof.
  intro Hd. rewrite getStagedDiff_eq, Hd. split.
  - intro H. now rewrite (trim_all_ws1 diff H).
  - intros pre b post -> Hb.
    pose proof (trim_keeps_visible b Hb pre post) as H.
    apply String.eqb_neq in H. now rewrite H.
Qed.

Lemma isEmpty_on_ascii_witness :
  getStagedDiff (sample_world (Some "sk-test") (" " ++ nl ++ nl)
                   (inl (one_candidate "feat: x")) "y") =
    (Return {| GitDiff.content := " " ++ nl ++ nl; GitDiff.isEmpty := true |},
     [ExecSync "git diff --cached"]) /\
  getStagedDiff (scenario "y") =
    (Return {| GitDiff.content := sample_diff; GitDiff.isEmpty := false |},
     [ExecSync "git diff --cached"]).
Proof.
  split.
  - apply (proj1 (isEmpty_on_ascii
                    (sample_world (Some "sk-test") (" " ++ nl ++ nl)
                       (inl (one_candidate "feat: x")) "y")
                    (" " ++ nl ++ nl) eq_refl)).
    reflexivity.
  - apply (proj2 (isEmpty_on_ascii (scenario "y") sample_diff eq_refl)
             "" "+"%char "console.log('x')"); reflexivity.
Defined.

(** What [strip] returns is a tail of its argument, and it does not start
    with an ASCII white space. *)
Lemma strip_spec (fwd : bool) (n : nat) :
  forall l, (length l <= n)%nat ->
    (exists p, l = (p ++ strip fwd l)%list) /\
    match strip fwd l with
    | a :: _ => ws1 a = false
    | [] => True
    end.
Proof.
  induction n as [| n IH]; intros l Hn.
  - destruct l; [ | cbn [length] in Hn; lia ].
    split; [ now exists [] | exact I ].
  - destruct l as [| a r]; [ split; [ now exists [] | exact I ] |].
    cbn [length] in Hn. cbn [strip].
    destruct (ws1 a) eqn:Ha.
    { destruct (IH r ltac:(lia)) as [[p Hp] Hh].
      split; [ exists (a :: p); cbn [app]; now rewrite <- Hp | exact Hh ]. }
    destruct r as [| b r2]; [ split; [ now exists [] | exact Ha ] |].
    cbn [length] in Hn.
    destruct (if fwd then ws2 a b else ws2 b a).
    { destruct (IH r2 ltac:(lia)) as [[p Hp] Hh].
      split; [ exists (a :: b :: p); cbn [app]; now rewrite <- Hp | exact Hh ]. }
    destruct r2 as [| c r3]; [ split; [ now exists [] | exact Ha ] |].
    cbn [length] in Hn.
    destruct (if fwd then ws3 a b c else ws3 c b a).
    { destruct (IH r3 ltac:(lia)) as [[p Hp] Hh].
      split; [ exists (a :: b :: c :: p); cbn [app]; now rewrite <- Hp | exact Hh ]. }
    split; [ now exists [] | exact Ha ].
Qed.

Lemma trim_ends (s : string) :
  (forall c r, trim s = String c r -> ws1 c = false) /\
  (forall r c, trim s = r ++ String c "" -> ws1 c = false).
Proof.
  unfold trim.
  set (L1 := strip true (list_ascii_of_string s)).
  set (S := strip false (rev L1)).
  destruct (strip_spec true _ (list_ascii_of_string s) (le_n _)) as [_ H1].
  fold L1 in H1.
  destruct (strip_spec false _ (rev L1) (le_n _)) as [[p Hp] H2].
  fold S in Hp, H2.
  assert (HL : L1 = (rev S ++ rev p)%list).
  { rewrite <- (rev_involutive L1), Hp, rev_app_distr. reflexivity. }
  split.
  - intros c r H. apply (f_equal list_ascii_of_string) in H.
    rewrite list_ascii_of_string_of_list_ascii in H. cbn [list_ascii_of_string] in H.
    rewrite H in HL. cbn [app] in HL. rewrite HL in H1. exact H1.
  - intros r c H. apply (f_equal list_ascii_of_string) in H.
    rewrite list_ascii_of_string_of_list_ascii, list_ascii_of_string_app in H.
    cbn [list_ascii_of_string] in H.
    apply (f_equal (@rev ascii)) in H.
    rewrite rev_involutive, rev_app_distr in H. cbn [rev app] in H.
    rewrite H in H2. exact H2.
Qed.

(** X16 — The suggestion is trimmed: whenever [generateCommitMessage]
    returns, exactly one request was made, and the message it returns neither
    starts nor ends with a space, a tab or a line break. *)
Theorem suggestion_is_trimmed (encode : string -> list N) (w : World)
  (self : GitCommitGenerator) (diff : string)
  (commitMessage : CommitMessage.t) (t : list Event) :
  generateCommitMessage encode w self diff = (Return commitMessage, t) ->
  length (network_calls t) = 1%nat /\
  (forall c r, CommitMessage.content commitMessage = String c r ->
               ws1 c = false) /\
  (forall r c, CommitMessage.content commitMessage = r ++ String c "" ->
               ws1 c = false).
Proof.
  intro H.
  destruct (generate_shape encode w self diff)
    as [(response & raw & _ & _ & _ & G) | (text & log & G & _)];
    rewrite G in H; [ | discriminate H ].
  injection H as <- <-. split; [ reflexivity | ].
  cbn [CommitMessage.content]. apply trim_ends.
Qed.

Lemma suggestion_is_trimmed_witness :
  length (network_calls [request_event "sk-test" sample_diff]) = 1%nat /\
  ws1 "f"%char = false /\
  ws1 "g"%char = false.
Proof.
  pose proof (suggestion_is_trimmed byte_tokens
                (sample_world (Some "sk-test") sample_diff
                   (inl (one_candidate ("  feat: add debug log" ++ nl))) "y")
                (generator "sk-test") sample_diff
                {| CommitMessage.content := "feat: add debug log" |}
                [request_event "sk-test" sample_diff] eq_refl)
    as (Hn & Hs & He).
  split; [ exact Hn | ]. split.
  - exact (Hs "f"%char "eat: add debug log" eq_refl).
  - exact (He "feat: add debug lo" "g"%char eq_refl).
Defined.

(** * The full program *)

Section FullRun.

Variable tokenizer : string -> list N + Thrown.
Variable w : World.
Variable input_ends : bool.

Lemma full_generate_throws (self : GitCommitGenerator) (diff : string)
  (error : Thrown) :
  tokenizer (promptTemplate self) = inr error \/
  (exists promptEncoded,
      tokenizer (promptTemplate self) = inl promptEncoded /\
      tokenizer diff = inr error) ->
  Full.generateCommitMessage tokenizer w self diff = (Throw error, []).
Proof.
  unfold Full.generateCommitMessage, Full.checkContextLength, Full.encode.
  intros [H | (pt & H1 & H2)].
  - now rewrite H.
  - rewrite H1. js_step. now rewrite H2.
Qed.

Lemma full_generate_returns (self : GitCommitGenerator) (diff : string)
  (promptEncoded diffEncoded : list N) :
  tokenizer (promptTemplate self) = inl promptEncoded ->
  tokenizer diff = inl diffEncoded ->
  Full.generateCommitMessage tokenizer w self diff =
  generateCommitMessage (total tokenizer) w self diff.
Proof.
  intros H1 H2.
  unfold Full.generateCommitMessage, Full.checkContextLength, Full.encode,
    generateCommitMessage, checkContextLength, total.
  rewrite H1, H2. js_step.
  destruct (OpenAIConfig.maxContextLength (openaiConfig self) <?
            N.of_nat (length promptEncoded) + N.of_nat (length diffEncoded));
    reflexivity.
Qed.

Lemma full_promptUser_eq :
  Full.promptUser w input_ends =
  if input_ends then (Exit 0, [Question confirm_query])
  else (Return (String.eqb (toLowerCase (answer w)) "y"),
        [Question confirm_query]).
Proof. unfold Full.promptUser, Full.question. now destruct input_ends. Qed.

(** [Full.run], symbolically executed down to [Full.generateCommitMessage]. *)
Lemma full_run_eq (self : GitCommitGenerator) :
  Full.run tokenizer w input_ends self =
  match execSync w "git diff --cached" with
  | inr error =>
    (Exit 1,
     [ExecSync "git diff --cached";
      ConsoleError ("❌ Failed to get git diff: " ++ messageOr error "Unknown error")])
  | inl diff =>
    if String.eqb (trim diff) "" then
      (Return tt, [ExecSync "git diff --cached"; ConsoleLog no_staged_notice])
    else
      match Full.generateCommitMessage tokenizer w self diff with
      | (Return commitMessage, t) =>
        let message := CommitMessage.content commitMessage in
        let shown :=
          [ConsoleLog (nl ++ "✅ Suggested commit message:" ++ nl);
           ConsoleLog message; Question confirm_query] in
        if input_ends then
          (Exit 0, ExecSync "git diff --cached" :: t ++ shown)
        else if String.eqb (toLowerCase (answer w)) "y" then
          match execSync w (commit_command message) with
          | inl _ =>
            (Return tt,
             ExecSync "git diff --cached" ::
             t ++ shown ++ [ExecSync (commit_command message)])
          | inr error =>
            (Exit 1,
             ExecSync "git diff --cached" ::
             t ++ shown ++
             [ExecSync (commit_command message);
              ConsoleError ("❌ Failed to commit: " ++ messageOr error "Unknown error")])
          end
        else
          (Return tt,
           ExecSync "git diff --cached" ::
           t ++ shown ++ [ConsoleLog "🛑 Commit cancelled."])
      | (Throw error, t) =>
        (Exit 1,
         ExecSync "git diff --cached" ::
         t ++ [ConsoleError (messageOr error "An unexpected error occurred")])
      | (Exit code, t) => (Exit code, ExecSync "git diff --cached" :: t)
      end
  end%list.
Proof.
  unfold Full.run. rewrite getStagedDiff_eq.
  destruct (execSync w "git diff --cached") as [diff | error]; [ | reflexivity ].
  js_step. cbn [GitDiff.isEmpty GitDiff.content].
  destruct (String.eqb (trim diff) ""); [ reflexivity | ].
  destruct (Full.generateCommitMessage tokenizer w self diff) as [[cm | error | code] t];
    js_step; [ | reflexivity | reflexivity ].
  unfold console_log. rewrite full_promptUser_eq.
  destruct input_ends; [ reflexivity | ]. js_step.
  destruct (String.eqb (toLowerCase (answer w)) "y").
  - rewrite commitChanges_eq.
    destruct (execSync w (commit_command (CommitMessage.content cm)));
      js_step; cbv zeta; cbn [app]; [ reflexivity | ].
    unfold console_error. js_step. rewrite <- app_assoc. reflexivity.
  - reflexivity.
Qed.

Lemma full_main_present (key : string) :
  env_OPENAI_API_KEY w = Some key -> key <> "" ->
  Full.main tokenizer w input_ends =
  match Full.run tokenizer w input_ends (generator key) with
  | (Return _, t) => (0, t)
  | (Throw error, t) => (1, t ++ [ConsoleErrorFatal error])
  | (Exit code, t) => (code, t)
  end%list.
Proof.
  intros E Hk. unfold Full.main, Full.script. rewrite (new_present w key E Hk).
  js_step.
  destruct (Full.run tokenizer w input_ends (generator key)) as [[[] | error | code] t];
    js_step; reflexivity.
Qed.

Lemma full_main_missing :
  env_OPENAI_API_KEY w = None \/ env_OPENAI_API_KEY w = Some "" ->
  Full.main tokenizer w input_ends = (1, [Uncaught (ErrorObj missing_key_text)]).
Proof. intro H. unfold Full.main, Full.script. rewrite (new_missing w H). reflexivity. Qed.

(** The run when the tokenizer throws. *)
Lemma full_main_tokenizer_throws (key diff : string) (error : Thrown) :
  env_OPENAI_API_KEY w = Some key -> key <> "" ->
  execSync w "git diff --cached" = inl diff -> trim diff <> "" ->
  tokenizer promptTemplate_text = inr error \/
  (exists promptEncoded,
      tokenizer promptTemplate_text = inl promptEncoded /\
      tokenizer diff = inr error) ->
  Full.main tokenizer w input_ends =
    (1, [ExecSync "git diff --cached";
         ConsoleError (messageOr error "An unexpected error occurred")]).
Proof.
  intros E Hk Hd Hne Ht.
  rewrite (full_main_present key E Hk), full_run_eq, Hd.
  apply String.eqb_neq in Hne. rewrite Hne.
  rewrite (full_generate_throws (generator key) diff error Ht). reflexivity.
Qed.

(** The run when the tokenizer returns: the run of [main], but for the end
    of input at the prompt. *)
Lemma full_main_tokenizer_returns (key diff : string)
  (promptEncoded diffEncoded : list N) :
  env_OPENAI_API_KEY w = Some key -> key <> "" ->
  execSync w "git diff --cached" = inl diff -> trim diff <> "" ->
  tokenizer promptTemplate_text = inl promptEncoded ->
  tokenizer diff = inl diffEncoded ->
  Full.main tokenizer w input_ends =
  match generateCommitMessage (total tokenizer) w (generator key) diff with
  | (Return commitMessage, t) =>
    if input_ends then
      (0, (ExecSync "git diff --cached" ::
           t ++ [ConsoleLog (nl ++ "✅ Suggested commit message:" ++ nl);
                 ConsoleLog (CommitMessage.content commitMessage);
                 Question confirm_query])%list)
    else main (total tokenizer) w
  | _ => main (total tokenizer) w
  end.
Proof.
  intros E Hk Hd Hne H1 H2.
  rewrite (full_main_present key E Hk), full_run_eq, Hd.
  rewrite (main_present (total tokenizer) w key E Hk), run_eq, Hd.
  apply String.eqb_neq in Hne. rewrite Hne.
  rewrite (full_generate_returns (generator key) diff _ _ H1 H2).
  destruct (generateCommitMessage (total tokenizer) w (generator key) diff)
    as [[cm | error | code] t]; try reflexivity.
  cbv zeta. destruct input_ends; reflexivity.
Qed.

(** The run when the tokenizer is not consulted. *)
Lemma full_main_before_tokenizer :
  (forall key, env_OPENAI_API_KEY w = Some key -> key <> "" ->
     forall diff, execSync w "git diff --cached" = inl diff -> trim diff = "") ->
  Full.main tokenizer w input_ends = main (total tokenizer) w.
Proof.
  intro H.
  destruct (env_OPENAI_API_KEY w) as [key |] eqn:E;
    [ | rewrite (full_main_missing (or_introl E));
        now rewrite (main_missing (total tokenizer) w (or_introl E)) ].
  destruct (String.eqb_spec key "") as [-> | Hk];
    [ rewrite (full_main_missing (or_intror E));
      now rewrite (main_missing (total tokenizer) w (or_intror E)) | ].
  rewrite (full_main_present key E Hk), full_run_eq.
  rewrite (main_present (total tokenizer) w key E Hk), run_eq.
  destruct (execSync w "git diff --cached") as [diff | error] eqn:Hd;
    [ | reflexivity ].
  now rewrite (H key eq_refl Hk diff eq_refl).
Qed.

End FullRun.

(** [main] is [Full.main] with a tokenizer that returns and a line that is
    read. *)
Lemma full_main_bridge (encode : string -> list N) (w : World) :
  Full.main (fun text => inl (encode text)) w false = main encode w.
Proof.
  destruct (env_OPENAI_API_KEY w) as [key |] eqn:E;
    [ | rewrite (full_main_missing _ w false (or_introl E));
        now rewrite (main_missing encode w (or_introl E)) ].
  destruct (String.eqb_spec key "") as [-> | Hk];
    [ rewrite (full_main_missing _ w false (or_intror E));
      now rewrite (main_missing encode w (or_intror E)) | ].
  rewrite (full_main_present _ w false key E Hk), full_run_eq.
  rewrite (main_present encode w key E Hk), run_eq.
  destruct (execSync w "git diff --cached") as [diff | error]; [ | reflexivity ].
  destruct (String.eqb (trim diff) ""); [ reflexivity | ].
  rewrite (full_generate_returns _ w (generator key) diff _ _ eq_refl eq_refl).
  reflexivity.
Qed.

Section FullEndings.

Variable tokenizer : string -> list N + Thrown.
Variable w : World.
Variable input_ends : bool.

Lemma total_counts (diff : string) (promptEncoded diffEncoded : list N) :
  tokenizer promptTemplate_text = inl promptEncoded ->
  tokenizer diff = inl diffEncoded ->
  promptTokens (total tokenizer) + diffTokens (total tokenizer) diff =
  N.of_nat (length promptEncoded) + N.of_nat (length diffEncoded).
Proof.
  intros H1 H2. unfold promptTokens, diffTokens, total. now rewrite H1, H2.
Qed.

Lemma full_obtained_total (key diff : string) (response : AxiosResponse.t)
  (raw : string) :
  Full.suggestion_obtained tokenizer w key diff response raw ->
  suggestion_obtained (total tokenizer) w key diff response raw.
Proof.
  intros (E & Hk & Hd & Hne & (pt & dt & H1 & H2 & Hge) & Hp & Hc).
  repeat (split; [ assumption | ]).
  split; [ | split; assumption ].
  now rewrite (total_counts diff pt dt H1 H2).
Qed.

Lemma total_obtained_full (key diff : string) (response : AxiosResponse.t)
  (raw : string) (promptEncoded diffEncoded : list N) :
  tokenizer promptTemplate_text = inl promptEncoded ->
  tokenizer diff = inl diffEncoded ->
  suggestion_obtained (total tokenizer) w key diff response raw ->
  Full.suggestion_obtained tokenizer w key diff response raw.
Proof.
  intros H1 H2 (E & Hk & Hd & Hne & Hge & Hp & Hc).
  repeat (split; [ assumption | ]).
  split; [ | split; assumption ].
  exists promptEncoded, diffEncoded.
  rewrite (total_counts diff _ _ H1 H2) in Hge. repeat split; assumption.
Qed.

(** The run once the suggestion is there. *)
Lemma full_main_obtained (key diff : string) (response : AxiosResponse.t)
  (raw : string) :
  Full.suggestion_obtained tokenizer w key diff response raw ->
  Full.main tokenizer w input_ends =
  if input_ends then (0, trace_to_prompt key diff raw)
  else main (total tokenizer) w.
Proof.
  intro Hf. pose proof (full_obtained_total key diff response raw Hf) as Ho.
  destruct Hf as (E & Hk & Hd & Hne & (pt & dt & H1 & H2 & _) & _).
  rewrite (full_main_tokenizer_returns tokenizer w input_ends key diff pt dt
             E Hk Hd Hne H1 H2).
  destruct Ho as (_ & _ & _ & _ & Hge & Hp & Hc).
  rewrite (generate_ok (total tokenizer) w (generator key) diff response raw
             Hge Hp Hc).
  reflexivity.
Qed.

(** Every run of the full program: the tokenizer threw, or the input ended
    at the prompt, or the run is the one of [main]. *)
Lemma full_main_cases :
  (exists key diff error,
      env_OPENAI_API_KEY w = Some key /\ key <> "" /\
      execSync w "git diff --cached" = inl diff /\ trim diff <> "" /\
      (tokenizer promptTemplate_text = inr error \/
       (exists promptEncoded,
           tokenizer promptTemplate_text = inl promptEncoded /\
           tokenizer diff = inr error)) /\
      Full.main tokenizer w input_ends =
        (1, [ExecSync "git diff --cached";
             ConsoleError (messageOr error "An unexpected error occurred")]))
  \/
  (input_ends = true /\
   exists key diff response raw,
     Full.suggestion_obtained tokenizer w key diff response raw /\
     Full.main tokenizer w input_ends = (0, trace_to_prompt key diff raw))
  \/
  (Full.main tokenizer w input_ends = main (total tokenizer) w /\
   (forall key diff,
       env_OPENAI_API_KEY w = Some key -> key <> "" ->
       execSync w "git diff --cached" = inl diff -> trim diff <> "" ->
       exists promptEncoded diffEncoded,
         tokenizer promptTemplate_text = inl promptEncoded /\
         tokenizer diff = inl diffEncoded) /\
   (input_ends = true ->
    forall key diff response raw,
      ~ Full.suggestion_obtained tokenizer w key diff response raw)).
Proof.
  assert (Early :
    (forall key, env_OPENAI_API_KEY w = Some key -> key <> "" ->
       forall diff, execSync w "git diff --cached" = inl diff -> trim diff = "") ->
    Full.main tokenizer w input_ends = main (total tokenizer) w /\
    (forall key diff,
        env_OPENAI_API_KEY w = Some key -> key <> "" ->
        execSync w "git diff --cached" = inl diff -> trim diff <> "" ->
        exists promptEncoded diffEncoded,
          tokenizer promptTemplate_text = inl promptEncoded /\
          tokenizer diff = inl diffEncoded) /\
    (input_ends = true ->
     forall key diff response raw,
       ~ Full.suggestion_obtained tokenizer w key diff response raw)).
  { intro H. split; [ now apply full_main_before_tokenizer | ]. split.
    - intros key diff E Hk Hd Hne. now destruct (Hne (H key E Hk diff Hd)).
    - intros _ key diff response raw (E & Hk & Hd & Hne & _).
      exact (Hne (H key E Hk diff Hd)). }
  destruct (env_OPENAI_API_KEY w) as [key |] eqn:E;
    [ | right; right; apply Early; intros k Ek; discriminate Ek ].
  destruct (String.eqb_spec key "") as [-> | Hk];
    [ right; right; apply Early; intros k Ek Hk; injection Ek as <-;
      now destruct Hk | ].
  destruct (execSync w "git diff --cached") as [diff | error] eqn:Hd;
    [ | right; right; apply Early; intros k _ _ d Hd'; discriminate Hd' ].
  destruct (String.eqb_spec (trim diff) "") as [He | Hne];
    [ right; right; apply Early; intros k _ _ d Hd'; injection Hd' as <-;
      exact He | ].
  destruct (tokenizer promptTemplate_text) as [pt | error] eqn:H1.
  2:{ left. exists key, diff, error. repeat (split; [ assumption || reflexivity | ]).
      split; [ now left | ].
      apply (full_main_tokenizer_throws tokenizer w input_ends key diff error
               E Hk Hd Hne). now left. }
  destruct (tokenizer diff) as [dt | error] eqn:H2.
  2:{ left. exists key, diff, error. repeat (split; [ assumption || reflexivity | ]).
      split; [ right; now exists pt | ].
      apply (full_main_tokenizer_throws tokenizer w input_ends key diff error
               E Hk Hd Hne). right. now exists pt. }
  pose proof (full_main_tokenizer_returns tokenizer w input_ends key diff pt dt
                E Hk Hd Hne H1 H2) as M.
  destruct (generate_shape (total tokenizer) w (generator key) diff)
    as [(response & raw & Hge & Hp & Hc & G) | (text & log & G & _)];
    rewrite G in M.
  - assert (Hf : Full.suggestion_obtained tokenizer w key diff response raw).
    { apply (total_obtained_full key diff response raw pt dt H1 H2).
      repeat split; assumption. }
    destruct input_ends eqn:Hi.
    + right. left. split; [ reflexivity | ].
      exists key, diff, response, raw. split; [ exact Hf | exact M ].
    + right. right. split; [ exact M | ].
      split; [ intros key' diff' _ _ Hd' _; injection Hd' as <-; now exists pt, dt | ].
      intro Hx. discriminate Hx.
  - right. right. split; [ exact M | ].
    split; [ intros key' diff' _ _ Hd' _; injection Hd' as <-; now exists pt, dt | ].
    intros _ key' diff' response raw Hf.
    apply full_obtained_total in Hf.
    destruct Hf as (E' & _ & Hd' & _ & Hge & Hp & Hc).
    rewrite E in E'. injection E' as <-.
    rewrite Hd in Hd'. injection Hd' as <-.
    rewrite (generate_ok (total tokenizer) w (generator key) diff response raw
               Hge Hp Hc) in G.
    discriminate G.
Qed.

End FullEndings.

(** X2 — After the prompt: once the suggestion is shown, the run ends in one
    of four ways.  The input ends before a line is typed: nothing more
    happens and the status is 0.  Accepted ([y] or [Y]) and committed: status
    0, the commit command is the last event.  Accepted and the commit
    command fails: the command was run once, [Failed to commit: ] and the
    error's message are printed, status 1.  Declined (any other line):
    [Commit cancelled.] is printed, status 0. *)
Theorem four_endings_after_the_prompt (tokenizer : string -> list N + Thrown)
  (w : World) (input_ends : bool)
  (key diff : string) (response : AxiosResponse.t) (raw : string) :
  Full.suggestion_obtained tokenizer w key diff response raw ->
  (input_ends = true ->
   Full.main tokenizer w input_ends = (0, trace_to_prompt key diff raw)) /\
  (input_ends = false -> answer w = "y" \/ answer w = "Y" ->
   forall out, execSync w (commit_command (trim raw)) = inl out ->
   Full.main tokenizer w input_ends =
     (0, (trace_to_prompt key diff raw ++
          [ExecSync (commit_command (trim raw))])%list)) /\
  (input_ends = false -> answer w = "y" \/ answer w = "Y" ->
   forall error, execSync w (commit_command (trim raw)) = inr error ->
   Full.main tokenizer w input_ends =
     (1, (trace_to_prompt key diff raw ++
          [ExecSync (commit_command (trim raw));
           ConsoleError ("❌ Failed to commit: " ++
                         messageOr error "Unknown error")])%list)) /\
  (input_ends = false -> answer w <> "y" -> answer w <> "Y" ->
   Full.main tokenizer w input_ends =
     (0, (trace_to_prompt key diff raw ++
          [ConsoleLog "🛑 Commit cancelled."])%list)).
Proof.
  intro Hf.
  rewrite (full_main_obtained tokenizer w input_ends key diff response raw Hf).
  pose proof (endings_after_the_prompt (total tokenizer) w key diff response raw
                (full_obtained_total tokenizer w key diff response raw Hf))
    as (H1 & H2 & H3).
  split; [ now intros -> | ].
  split; [ intros ->; exact H1 | ].
  split; [ intros ->; exact H2 | intros ->; exact H3 ].
Qed.

Lemma four_endings_after_the_prompt_witness :
  Full.main strict_tokens (scenario "y") true =
    (0, trace_to_prompt "sk-test" sample_diff "feat: add debug log") /\
  Full.main strict_tokens (scenario "Y") false =
    (0, (trace_to_prompt "sk-test" sample_diff "feat: add debug log" ++
         [ExecSync (commit_command (trim "feat: add debug log"))])%list) /\
  Full.main strict_tokens (scenario_rejecting "y") false =
    (1, (trace_to_prompt "sk-test" sample_diff "feat: add debug log" ++
         [ExecSync (commit_command (trim "feat: add debug log"));
          ConsoleError
            ("❌ Failed to commit: " ++
             messageOr
               (ErrorObj ("Command failed: " ++
                          commit_command (trim "feat: add debug log")))
               "Unknown error")])%list) /\
  Full.main strict_tokens (scenario "") false =
    (0, (trace_to_prompt "sk-test" sample_diff "feat: add debug log" ++
         [ConsoleLog "🛑 Commit cancelled."])%list).
Proof.
  assert (Ho : forall line,
             Full.suggestion_obtained strict_tokens (scenario line) "sk-test"
               sample_diff (one_candidate "feat: add debug log")
               "feat: add debug log").
  { intro line. repeat (split; [ reflexivity || discriminate | ]).
    split; [ | split; reflexivity ].
    exists (byte_tokens promptTemplate_text), (byte_tokens sample_diff).
    split; [ reflexivity | ]. split; [ reflexivity | ].
    vm_compute. discriminate. }
  assert (Hr : Full.suggestion_obtained strict_tokens (scenario_rejecting "y")
                 "sk-test" sample_diff (one_candidate "feat: add debug log")
                 "feat: add debug log").
  { repeat (split; [ reflexivity || discriminate | ]).
    split; [ | split; reflexivity ].
    exists (byte_tokens promptTemplate_text), (byte_tokens sample_diff).
    split; [ reflexivity | ]. split; [ reflexivity | ].
    vm_compute. discriminate. }
  split; [ | split; [ | split ] ].
  - apply (proj1 (four_endings_after_the_prompt strict_tokens (scenario "y") true
                    _ _ _ _ (Ho "y"))). reflexivity.
  - apply (proj1 (proj2 (four_endings_after_the_prompt strict_tokens
                           (scenario "Y") false _ _ _ _ (Ho "Y")))
             eq_refl (or_intror eq_refl) "").
    reflexivity.
  - apply (proj1 (proj2 (proj2 (four_endings_after_the_prompt strict_tokens
                                  (scenario_rejecting "y") false _ _ _ _ Hr)))
             eq_refl (or_introl eq_refl)).
    reflexivity.
  - apply (proj2 (proj2 (proj2 (four_endings_after_the_prompt strict_tokens
                                  (scenario "") false _ _ _ _ (Ho "")))));
      [ reflexivity | discriminate | discriminate ].
Defined.

(** X11 — When the request is made: a run issues its completion request
    exactly when the credential is set and not empty, the staged diff was
    read and is not blank, the tokenizer returns for the template and for
    the diff, and the two token counts add up to at most the ceiling 16385
    (a count equal to the ceiling passes). *)
Theorem request_is_made_exactly_when (tokenizer : string -> list N + Thrown)
  (w : World) (input_ends : bool) :
  network_calls (snd (Full.main tokenizer w input_ends)) <> [] <->
  exists key diff promptEncoded diffEncoded,
    env_OPENAI_API_KEY w = Some key /\ key <> "" /\
    execSync w "git diff --cached" = inl diff /\ trim diff <> "" /\
    tokenizer promptTemplate_text = inl promptEncoded /\
    tokenizer diff = inl diffEncoded /\
    N.of_nat (length promptEncoded) + N.of_nat (length diffEncoded) <= 16385.
Proof.
  destruct (full_main_cases tokenizer w input_ends)
    as [ (key & diff & error & E & Hk & Hd & Hne & Ht & M)
       | [ (Hi & key & diff & response & raw & Hf & M)
         | (M & Returns & _) ] ].
  - rewrite M. split; [ intro H; now destruct H | ].
    intros (key' & diff' & pt & dt & E' & _ & Hd' & _ & H1 & H2 & _).
    rewrite Hd in Hd'. injection Hd' as <-.
    destruct Ht as [Ht | (pt' & _ & Ht)]; [ rewrite Ht in H1 | rewrite Ht in H2 ];
      discriminate.
  - rewrite M. split; [ intros _ | intros _; discriminate ].
    destruct Hf as (E & Hk & Hd & Hne & (pt & dt & H1 & H2 & Hge) & _).
    exists key, diff, pt, dt. repeat split; assumption.
  - rewrite M. rewrite (request_is_made_iff (total tokenizer) w). split.
    + intros (key & diff & E & Hk & Hd & Hne & Hge).
      destruct (Returns key diff E Hk Hd Hne) as (pt & dt & H1 & H2).
      rewrite (total_counts tokenizer diff pt dt H1 H2) in Hge.
      exists key, diff, pt, dt. repeat split; assumption.
    + intros (key & diff & pt & dt & E & Hk & Hd & Hne & H1 & H2 & Hge).
      exists key, diff. repeat (split; [ assumption | ]).
      now rewrite (total_counts tokenizer diff pt dt H1 H2).
Qed.

(** X12 — Exit status 0: a run ends with status 0 exactly when the
    credential is set and the staged diff was read, and either the diff is
    blank, or the suggestion was obtained and then the input ended before a
    line was typed, or the line declined, or the commit command succeeded. *)
Theorem exit_status_0_exactly_when (tokenizer : string -> list N + Thrown)
  (w : World) (input_ends : bool) :
  fst (Full.main tokenizer w input_ends) = 0 <->
  exists key diff,
    env_OPENAI_API_KEY w = Some key /\ key <> "" /\
    execSync w "git diff --cached" = inl diff /\
    (trim diff = "" \/
     exists response raw,
       Full.suggestion_obtained tokenizer w key diff response raw /\
       (input_ends = true \/
        (answer w <> "y" /\ answer w <> "Y") \/
        exists out, execSync w (commit_command (trim raw)) = inl out)).
Proof.
  destruct (full_main_cases tokenizer w input_ends)
    as [ (key & diff & error & E & Hk & Hd & Hne & Ht & M)
       | [ (Hi & key & diff & response & raw & Hf & M)
         | (M & Returns & Never) ] ].
  - rewrite M. split; [ discriminate | ].
    intros (key' & diff' & _ & _ & Hd' & [He | (response & raw & Hf & _)]).
    + rewrite Hd in Hd'. injection Hd' as <-. contradiction.
    + destruct Hf as (_ & _ & Hd'' & _ & (pt & dt & H1 & H2 & _) & _).
      rewrite Hd in Hd''. injection Hd'' as <-.
      destruct Ht as [Ht | (pt' & _ & Ht)];
        [ rewrite Ht in H1 | rewrite Ht in H2 ]; discriminate.
  - rewrite M. split; [ intros _ | reflexivity ].
    pose proof Hf as (E & Hk & Hd & _).
    exists key, diff. repeat (split; [ assumption | ]).
    right. exists response, raw. split; [ exact Hf | now left ].
  - rewrite M. rewrite (exit_status_0_iff (total tokenizer) w). split.
    + intros (key & diff & E & Hk & Hd & [He | (response & raw & Ho & Hend)]);
        exists key, diff; repeat (split; [ assumption | ]);
        [ now left | right ].
      pose proof Ho as (_ & _ & _ & Hne & _).
      destruct (Returns key diff E Hk Hd Hne) as (pt & dt & H1 & H2).
      exists response, raw.
      split; [ exact (total_obtained_full tokenizer w key diff response raw
                        pt dt H1 H2 Ho) | now right ].
    + intros (key & diff & E & Hk & Hd & [He | (response & raw & Hf & Hend)]);
        exists key, diff; repeat (split; [ assumption | ]);
        [ now left | right ].
      exists response, raw.
      split; [ exact (full_obtained_total tokenizer w key diff response raw Hf) | ].
      destruct Hend as [Hi | Hend]; [ | exact Hend ].
      now destruct (Never Hi key diff response raw).
Qed.

(** X17 — The tokenizer throws: when [encode] throws on the template or on
    the diff (as it does on a text that holds a special token), the error
    leaves [generateCommitMessage] before the request; the run prints the
    error's message and exits with status 1, with no request, no prompt and
    no commit. *)
Theorem tokenizer_failure_is_reported (tokenizer : string -> list N + Thrown)
  (w : World) (input_ends : bool) (key diff : string) (error : Thrown) :
  env_OPENAI_API_KEY w = Some key -> key <> "" ->
  execSync w "git diff --cached" = inl diff -> trim diff <> "" ->
  tokenizer promptTemplate_text = inr error \/
  (exists promptEncoded,
      tokenizer promptTemplate_text = inl promptEncoded /\
      tokenizer diff = inr error) ->
  Full.generateCommitMessage tokenizer w (generator key) diff = (Throw error, []) /\
  Full.main tokenizer w input_ends =
    (1, [ExecSync "git diff --cached";
         ConsoleError (messageOr error "An unexpected error occurred")]) /\
  network_calls (snd (Full.main tokenizer w input_ends)) = [] /\
  prompts (snd (Full.main tokenizer w input_ends)) = [] /\
  commit_invocations (snd (Full.main tokenizer w input_ends)) = [].
Proof.
  intros E Hk Hd Hne Ht.
  split; [ exact (full_generate_throws tokenizer w (generator key) diff error Ht) | ].
  rewrite (full_main_tokenizer_throws tokenizer w input_ends key diff error
             E Hk Hd Hne Ht).
  repeat split.
Qed.

Lemma tokenizer_failure_is_reported_witness :
  Full.main strict_tokens
    (sample_world (Some "sk-test") "+const eot = '<|endoftext|>'"
       (inl (one_candidate "feat: add debug log")) "y") false =
    (1, [ExecSync "git diff --cached";
         ConsoleError "Disallowed special token found: <|endoftext|>"]) /\
  network_calls
    (snd (Full.main strict_tokens
            (sample_world (Some "sk-test") "+const eot = '<|endoftext|>'"
               (inl (one_candidate "feat: add debug log")) "y") false)) = [].
Proof.
  pose proof (tokenizer_failure_is_reported strict_tokens
                (sample_world (Some "sk-test") "+const eot = '<|endoftext|>'"
                   (inl (one_candidate "feat: add debug log")) "y") false
                "sk-test" "+const eot = '<|endoftext|>'"
                (ErrorObj "Disallowed special token found: <|endoftext|>")
                eq_refl ltac:(discriminate) eq_refl ltac:(vm_compute; discriminate)
                (or_intror (ex_intro _ (byte_tokens promptTemplate_text)
                              (conj eq_refl eq_refl))))
    as (_ & M & Hn & _).
  split; [ exact M | exact Hn ].
Defined.
